(** * ddnsbridge4extdns: a shallow embedding of the DNS UPDATE bridge

    Go strings are modelled as Rocq [string]s, i.e. byte strings.  Names
    handled by the bridge come from the DNS presentation format, in which
    the DNS library escapes every non-printable byte, so they are ASCII;
    on ASCII input Go's rune-by-rune loops coincide with the byte-by-byte
    loops below. *)

From Stdlib Require Import String Ascii ZArith NArith Bool List.
From stdpp Require Import base gmap strings.
Import ListNotations.

Local Open Scope string_scope.

(* ------------------------------------------------------------------ *)
(** ** Go's [strings] package, on byte strings *)

Module GoStrings.

(** [strings.HasSuffix(s, suffix)]:
    [len(s) >= len(suffix) && s[len(s)-len(suffix):] == suffix]. *)
Definition HasSuffix (s suffix : string) : bool :=
  (String.length suffix <=? String.length s)%nat &&
  String.eqb (substring (String.length s - String.length suffix)
                        (String.length suffix) s) suffix.

(** [strings.TrimSuffix(s, suffix)]: [s[:len(s)-len(suffix)]] when [s]
    has the suffix, [s] otherwise. *)
Definition TrimSuffix (s suffix : string) : string :=
  if HasSuffix s suffix
  then substring 0 (String.length s - String.length suffix) s
  else s.

(** [s[:n]] for [n <= len(s)]. *)
Definition prefix_upto (n : nat) (s : string) : string := substring 0 n s.

(** [strings.Split(s, ":")[0]]: everything before the first colon. *)
Fixpoint before_colon (s : string) : string :=
  match s with
  | EmptyString => EmptyString
  | String c rest => if Ascii.eqb c ":" then EmptyString
                     else String c (before_colon rest)
  end.

(** [strings.Contains(s, sub)]. *)
Fixpoint Contains (s sub : string) : bool :=
  String.prefix sub s ||
  match s with
  | EmptyString => false
  | String _ rest => Contains rest sub
  end.

Lemma substring_full (b : string) : substring 0 (String.length b) b = b.
Proof. induction b as [|d b IHb]; simpl; [reflexivity|]. now rewrite IHb. Qed.

Lemma substring_app_length (a b : string) :
  substring (String.length a) (String.length b) (a ++ b) = b.
Proof.
  induction a as [|c a IH]; simpl; [apply substring_full | exact IH].
Qed.

Lemma length_app (a b : string) :
  String.length (a ++ b) = (String.length a + String.length b)%nat.
Proof. induction a as [|c a IH]; simpl; [reflexivity | now rewrite IH]. Qed.

Lemma HasSuffix_app (a b : string) : HasSuffix (a ++ b) b = true.
Proof.
  unfold HasSuffix. rewrite length_app.
  replace (String.length a + String.length b - String.length b)%nat
    with (String.length a) by lia.
  rewrite substring_app_length, String.eqb_refl.
  apply andb_true_intro; split; [apply Nat.leb_le; lia | reflexivity].
Qed.

Lemma HasSuffix_longer (s suffix : string) :
  (String.length s < String.length suffix)%nat -> HasSuffix s suffix = false.
Proof.
  intros H. unfold HasSuffix.
  destruct (Nat.leb_spec (String.length suffix) (String.length s)); [lia|].
  reflexivity.
Qed.

End GoStrings.

Import GoStrings.

(* ------------------------------------------------------------------ *)
(** ** pkg/config: the configuration and the zone authorizer *)

Module Config.

(** [config.Config] *)
Record Config := mkConfig {
  ListenAddr : string;
  Port : Z;
  TSIGKey : string;
  TSIGSecret : string;
  TSIGAlgorithm : string;
  Namespace : string;
  AllowedZones : list string;
  CustomLabels : gmap string string;
  LogLevel : string
}.

(** The normalisation [if !strings.HasSuffix(z, ".") { z = z + "." }]
    applied to the requested zone and to every allowed zone. *)
Definition ensure_dot (z : string) : string :=
  if HasSuffix z "." then z else z ++ ".".

(** The [for _, allowedZone := range c.AllowedZones] loop of
    [IsZoneAllowed], with its early [return true]. *)
Fixpoint zone_loop (zone : string) (allowed : list string) : bool :=
  match allowed with
  | [] => false
  | allowedZone :: rest =>
      let allowedZone := ensure_dot allowedZone in
      if String.eqb zone allowedZone || HasSuffix zone ("." ++ allowedZone)
      then true
      else zone_loop zone rest
  end.

(** [func (c *Config) IsZoneAllowed(zone string) bool] *)
Definition IsZoneAllowed (c : Config) (zone : string) : bool :=
  let zone := ensure_dot zone in
  zone_loop zone (AllowedZones c).

End Config.

(* ------------------------------------------------------------------ *)
(** ** The DNS message as the handler and the parser see it *)

Module Dns.

(** Constants of github.com/miekg/dns. *)
Definition OpcodeQuery : Z := 0.
Definition OpcodeNotify : Z := 4.
Definition OpcodeUpdate : Z := 5.
Definition ClassINET : N := 1.
Definition ClassNONE : N := 254.
Definition ClassANY : N := 255.
Definition TypeA : N := 1.
Definition TypeAAAA : N := 28.
Definition RcodeSuccess : Z := 0.
Definition RcodeFormatError : Z := 1.
Definition RcodeServerFailure : Z := 2.
Definition RcodeNotImplemented : Z := 4.
Definition RcodeRefused : Z := 5.

(** An IP address, represented by its textual form [IP.String()]. *)
Definition IP := string.

(** [dns.RR_Header]; [Rrtype], [Class] are uint16 and [Ttl] is uint32. *)
Record RR_Header := mkHeader {
  Name : string;
  Rrtype : N;
  Class : N;
  Ttl : N
}.

(** The dynamic type behind the [dns.RR] interface, as far as the parser
    inspects it: a [*dns.A] or a [*dns.AAAA] with its address field, or a
    value of any other dynamic type.  The address field is [None] (a nil
    [net.IP]) when the record was decoded without RDATA: the DNS library
    builds a [*dns.A] or [*dns.AAAA] from the record's type and leaves the
    address nil when RDLENGTH is 0 or the class is ANY. *)
Inductive RRBody :=
| BodyA (a : option IP)
| BodyAAAA (aaaa : option IP)
| BodyOther.

Record RR := mkRR { Hdr : RR_Header; Body : RRBody }.

(** [dns.Question] (the zone section of an UPDATE). *)
Record Question := mkQuestion { QName : string }.

(** [dns.TSIG], the fields the bridge reads. *)
Record TSIG := mkTSIG {
  TsigName : string;
  Algorithm : string;
  MAC : string
}.

(** [dns.Msg]; [IsTsig] is the signature record when there is one. *)
Record Msg := mkMsg {
  Opcode : Z;
  QuestionSection : list Question;
  Ns : list RR;
  IsTsig : option TSIG
}.

End Dns.

Import Dns.

(* ------------------------------------------------------------------ *)
(** ** pkg/update: the UPDATE parser *)

Module Update.

(** [type UpdateType int] *)
Inductive UpdateType := UpdateTypeCreate | UpdateTypeUpdate | UpdateTypeDelete.

Global Instance UpdateType_eq_dec : EqDecision UpdateType.
Proof. solve_decision. Defined.

(** [type DNSUpdate struct]; [IP] is [None] for a nil [net.IP].  The
    Go field [Type] is [Type_] here ([Type] is a Rocq keyword). *)
Record DNSUpdate := mkDNSUpdate {
  Type_ : UpdateType;
  RecordType : N;
  Name : string;
  Zone : string;
  IP : option Dns.IP;
  TTL : N
}.

(** The errors [Parse] and [parseRR] return. *)
Inductive ParseError :=
| NotAnUpdate (opcode : Z)
| NoZoneSection
| UnsupportedClass (class : N)
| InvalidA
| InvalidAAAA
| NoValidUpdates.

(** A Go [(value, error)] pair with exactly one of the two set. *)
Inductive Result (E A : Type) := Ok (a : A) | Err (e : E).
Arguments Ok {E A} a.
Arguments Err {E A} e.

(** [func (p *Parser) parseRR(rr dns.RR, zone string) ( *DNSUpdate, error)];
    [Ok None] is the [return nil, nil] of other record types. *)
Definition parseRR (rr : RR) (zone : string) : Result ParseError (option DNSUpdate) :=
  let header := Hdr rr in
  let typ :=
    if N.eqb (Class header) ClassANY then Some UpdateTypeDelete
    else if N.eqb (Class header) ClassNONE then Some UpdateTypeDelete
    else if N.eqb (Class header) ClassINET then
      Some (if N.eqb (Ttl header) 0 then UpdateTypeDelete else UpdateTypeCreate)
    else None in
  match typ with
  | None => Err (UnsupportedClass (Class header))
  | Some t =>
      let upd ip := mkDNSUpdate t (Rrtype header) (Dns.Name header) zone ip (Ttl header) in
      if N.eqb (Rrtype header) TypeA then
        match Body rr with
        | BodyA a => Ok (Some (upd a))
        | _ => if bool_decide (t <> UpdateTypeDelete) then Err InvalidA
               else Ok (Some (upd None))
        end
      else if N.eqb (Rrtype header) TypeAAAA then
        match Body rr with
        | BodyAAAA aaaa => Ok (Some (upd aaaa))
        | _ => if bool_decide (t <> UpdateTypeDelete) then Err InvalidAAAA
               else Ok (Some (upd None))
        end
      else Ok None
  end.

(** The [for _, rr := range msg.Ns] loop of [Parse]: errors are skipped
    ([continue]), non-nil updates appended in order. *)
Fixpoint collect (rrs : list RR) (zone : string) : list DNSUpdate :=
  match rrs with
  | [] => []
  | rr :: rest =>
      match parseRR rr zone with
      | Ok (Some u) => u :: collect rest zone
      | _ => collect rest zone
      end
  end.

(** [func (p *Parser) Parse(msg *dns.Msg) ([]*DNSUpdate, error)] *)
Definition Parse (msg : Msg) : Result ParseError (list DNSUpdate) :=
  if negb (Z.eqb (Opcode msg) OpcodeUpdate) then Err (NotAnUpdate (Opcode msg))
  else match QuestionSection msg with
       | [] => Err NoZoneSection
       | q :: _ =>
           let zone := QName q in
           match collect (Ns msg) zone with
           | [] => Err NoValidUpdates
           | updates => Ok updates
           end
       end.

(** [func (u *DNSUpdate) GetHostname() string] *)
Definition GetHostname (u : DNSUpdate) : string :=
  let name := TrimSuffix (Name u) "." in
  let zone := TrimSuffix (Zone u) "." in
  if HasSuffix name ("." ++ zone) then TrimSuffix name ("." ++ zone)
  else if String.eqb name zone then "@"
  else name.

End Update.

Import Update.

(* ------------------------------------------------------------------ *)
(** ** pkg/k8s: names, labels and the reconciler *)

Module K8s.

(** [func isAlphanumericLower(r rune) bool] *)
Definition isAlphanumericLower (r : ascii) : bool :=
  let n := nat_of_ascii r in
  ((97 <=? n) && (n <=? 122) || (48 <=? n) && (n <=? 57))%nat.

(** [strings.ToLower] on one ASCII byte. *)
Definition ascii_to_lower (r : ascii) : ascii :=
  let n := nat_of_ascii r in
  if ((65 <=? n) && (n <=? 90))%nat then ascii_of_nat (n + 32) else r.

Fixpoint ToLower (s : string) : string :=
  match s with
  | EmptyString => EmptyString
  | String r rest => String (ascii_to_lower r) (ToLower rest)
  end.

(** The [for _, r := range name] loop of [dnsNameToK8sName]. *)
Fixpoint k8s_runes (name : string) : string :=
  match name with
  | EmptyString => EmptyString
  | String r rest =>
      if isAlphanumericLower r || Ascii.eqb r "-" then String r (k8s_runes rest)
      else if Ascii.eqb r "." || Ascii.eqb r "_" || Ascii.eqb r ":"
      then String "-" (k8s_runes rest)
      else k8s_runes rest
  end.

(** [func dnsNameToK8sName(name string) string] *)
Definition dnsNameToK8sName (name : string) : string :=
  k8s_runes (ToLower name).

(** [if len(name) > 0 && name[len(name)-1] == '.' { name = name[:len(name)-1] }] *)
Definition drop_trailing_dot (name : string) : string :=
  if (0 <? String.length name)%nat &&
     (match String.get (String.length name - 1) name with
      | Some c => Ascii.eqb c "."
      | None => false
      end)
  then prefix_upto (String.length name - 1) name
  else name.

(** [func sanitizeResourceName(hostname string) string] *)
Definition sanitizeResourceName (hostname : string) : string :=
  let name := drop_trailing_dot hostname in
  let name := dnsNameToK8sName name in
  let name := match name with
              | String c _ => if negb (isAlphanumericLower c) then "dns-" ++ name else name
              | EmptyString => name
              end in
  if (253 <? String.length name)%nat then prefix_upto 253 name else name.

(** [func sanitizeLabel(zone string) string] *)
Definition sanitizeLabel (zone : string) : string :=
  let label := drop_trailing_dot zone in
  let label := dnsNameToK8sName label in
  if (63 <? String.length label)%nat then prefix_upto 63 label else label.

(** One entry of [spec.endpoints]. *)
Record Endpoint := mkEndpoint {
  dnsName : string;
  recordType : string;
  recordTTL : Z;
  targets : list string
}.

Global Instance Endpoint_eq_dec : EqDecision Endpoint.
Proof.
  intros [a b c d] [a' b' c' d'].
  destruct (decide (a = a')), (decide (b = b')), (decide (c = c')), (decide (d = d'));
    try (right; congruence). left; congruence.
Defined.

(** An [unstructured.Unstructured] DNSEndpoint: [apiVersion] and [kind]
    are the constants [externaldns.k8s.io/v1alpha1] and [DNSEndpoint] and
    are left out; [labels] is [metadata.labels], [spec] is
    [spec.endpoints], [resourceVersion] the concurrency token. *)
Record Unstructured := mkUnstructured {
  u_name : string;
  u_namespace : string;
  u_labels : gmap string string;
  u_spec : list Endpoint;
  u_resourceVersion : string
}.

(** [endpoint.SetResourceVersion(v)] *)
Definition SetResourceVersion (v : string) (u : Unstructured) : Unstructured :=
  mkUnstructured (u_name u) (u_namespace u) (u_labels u) (u_spec u) v.

(** The API errors the client distinguishes: [apierrors.IsNotFound] or not. *)
Inductive StatusError := StatusNotFound | StatusConflict | StatusOther (reason : string).

(** [func isNotFoundError(err error) bool] *)
Definition isNotFoundError (e : StatusError) : bool :=
  match e with StatusNotFound => true | _ => false end.

(** The errors [ApplyUpdate] returns (the [fmt.Errorf] wrappers). *)
Inductive ClientError :=
| FailedGet (e : StatusError)
| FailedCreate (e : StatusError)
| FailedUpdate (e : StatusError)
| FailedDelete (e : StatusError)
| UnsupportedUpdateType (t : UpdateType).

(** The resource store behind [c.dynamicClient.Resource(c.gvr).Namespace(ns)]:
    get, create, update and delete by name, threading the store's state. *)
Class ResourceInterface (St : Type) := {
  Get : St -> string -> string -> Result StatusError Unstructured;
  Create : St -> string -> Unstructured -> Result StatusError St;
  UpdateRes : St -> string -> Unstructured -> Result StatusError St;
  Delete : St -> string -> string -> Result StatusError St
}.

(** [type Client struct] without the dynamic client, which is the store. *)
Record Client := mkClient {
  namespace : string;
  customLabels : gmap string string
}.

Definition managedByKey : string := "app.kubernetes.io/managed-by".
Definition zoneKey : string := "ddnsbridge4extdns/zone".
Definition askByKey : string := "ddnsbridge4extdns/ask-by".

(** The label map literal of [createOrUpdateEndpoint]; [client] is
    [client.String()], the sender address. *)
Definition defaultLabels (upd : DNSUpdate) (client : string) : gmap string string :=
  <[managedByKey := "ddnsbridge4extdns"]>
  (<[zoneKey := sanitizeLabel (Zone upd)]>
   (<[askByKey := sanitizeLabel (before_colon client)]> ∅)).

(** [for k, v := range c.customLabels { labels[k] = v }] *)
Definition addCustomLabels (custom labels : gmap string string) : gmap string string :=
  map_fold (fun k v acc => <[k := v]> acc) labels custom.

(** [upd.IP.String()]; a nil [net.IP] prints as [<nil>]. *)
Definition ipString (ip : option Dns.IP) : string :=
  match ip with Some a => a | None => "<nil>" end.

(** The resource name [sanitizeResourceName(upd.GetHostname())]. *)
Definition resourceNameOf (upd : DNSUpdate) : string :=
  sanitizeResourceName (GetHostname upd).

(** The desired [endpoint] object built by [createOrUpdateEndpoint]. *)
Definition desiredEndpoint (c : Client) (client : string) (upd : DNSUpdate) : Unstructured :=
  let recordType := if N.eqb (RecordType upd) 28 then "AAAA" else "A" in
  mkUnstructured
    (resourceNameOf upd)
    (namespace c)
    (addCustomLabels (customLabels c) (defaultLabels upd client))
    [mkEndpoint (Update.Name upd) recordType (Z.of_N (TTL upd)) [ipString (IP upd)]]
    "".

(** [func compareEndpoint(existing, desired)]: the two [reflect.DeepEqual]
    results on labels and on spec. *)
Definition compareEndpoint (existing desired : Unstructured) : bool * bool :=
  (bool_decide (u_labels existing = u_labels desired),
   bool_decide (u_spec existing = u_spec desired)).

Section Reconciler.
Context {St : Type} `{ResourceInterface St}.

(** [func (c *Client) createOrUpdateEndpoint(ctx, client, upd) (changed bool, err error)],
    returning the store's state after the call. *)
Definition createOrUpdateEndpoint (c : Client) (client : string) (upd : DNSUpdate)
    (st : St) : St * (bool * option ClientError) :=
  let resourceName := resourceNameOf upd in
  let endpoint := desiredEndpoint c client upd in
  match Get st (namespace c) resourceName with
  | Ok existing =>
      let (labelsMatch, specMatch) := compareEndpoint existing endpoint in
      if labelsMatch && specMatch then (st, (false, None))
      else
        let endpoint := SetResourceVersion (u_resourceVersion existing) endpoint in
        match UpdateRes st (namespace c) endpoint with
        | Ok st' => (st', (true, None))
        | Err e => (st, (false, Some (FailedUpdate e)))
        end
  | Err e =>
      if negb (isNotFoundError e) then (st, (false, Some (FailedGet e)))
      else
        match Create st (namespace c) endpoint with
        | Ok st' => (st', (true, None))
        | Err e => (st, (false, Some (FailedCreate e)))
        end
  end.

(** [func (c *Client) deleteEndpoint(ctx, upd) error] *)
Definition deleteEndpoint (c : Client) (upd : DNSUpdate) (st : St) : St * option ClientError :=
  let resourceName := resourceNameOf upd in
  match Delete st (namespace c) resourceName with
  | Ok st' => (st', None)
  | Err e => if negb (isNotFoundError e) then (st, Some (FailedDelete e)) else (st, None)
  end.

(** [func (c *Client) ApplyUpdate(client net.Addr, upd) (changed bool, err error)] *)
Definition ApplyUpdate (c : Client) (client : string) (upd : DNSUpdate) (st : St)
    : St * (bool * option ClientError) :=
  match Type_ upd with
  | UpdateTypeCreate | UpdateTypeUpdate => createOrUpdateEndpoint c client upd st
  | UpdateTypeDelete => let (st', e) := deleteEndpoint c upd st in (st', (true, e))
  end.

End Reconciler.

End K8s.

Import K8s.

(* ------------------------------------------------------------------ *)
(** ** internal/handler: the dispatcher *)

Module Handler.

(** The reply written to the [dns.ResponseWriter]: its rcode, and the
    request MAC [writeResponse] chains the reply signature from ([None]:
    the reply goes out through [w.WriteMsg] unsigned). *)
Record Response := mkResponse {
  Rcode : Z;
  SignedWith : option string
}.

Section Dispatcher.
Context {St : Type} `{ResourceInterface St}.

(** [func (h *Handler) writeResponse(w, msg, requestMAC string)]: signs
    (chaining from [requestMAC]) exactly when [requestMAC != ""]. *)
Definition writeResponse (rcode : Z) (requestMAC : string) : Response :=
  mkResponse rcode (if String.eqb requestMAC "" then None else Some requestMAC).

(** The [for _, upd := range updates] loop of [ServeDNS]: applies the
    updates in order and stops at the first error. *)
Fixpoint applyUpdates (k : Client) (sender : string) (updates : list DNSUpdate)
    (st : St) : St * option ClientError :=
  match updates with
  | [] => (st, None)
  | upd :: rest =>
      let '(st', (_, err)) := ApplyUpdate k sender upd st in
      match err with
      | Some e => (st', Some e)
      | None => applyUpdates k sender rest st'
      end
  end.

(** [func (h *Handler) ServeDNS(w dns.ResponseWriter, r *dns.Msg)];
    [sender] is [w.RemoteAddr().String()]. *)
Definition ServeDNS (cfg : Config.Config) (k : Client) (sender : string) (r : Msg)
    (st : St) : Response * St :=
  if negb (Z.eqb (Opcode r) OpcodeUpdate)
  then (mkResponse RcodeNotImplemented None, st)
  else
    let requestMAC := match IsTsig r with Some t => MAC t | None => "" end in
    match QuestionSection r with
    | [] => (writeResponse RcodeFormatError requestMAC, st)
    | q :: _ =>
        let zone := QName q in
        if negb (Config.IsZoneAllowed cfg zone)
        then (writeResponse RcodeRefused requestMAC, st)
        else
          match Parse r with
          | Err _ => (writeResponse RcodeFormatError requestMAC, st)
          | Ok updates =>
              match applyUpdates k sender updates st with
              | (st', Some _) => (writeResponse RcodeServerFailure requestMAC, st')
              | (st', None) => (writeResponse RcodeSuccess requestMAC, st')
              end
          end
    end.

End Dispatcher.

End Handler.

(* ------------------------------------------------------------------ *)
(** ** pkg/tsig: the TSIG validator *)

Module Tsig.

(** [type Validator struct] *)
Record Validator := mkValidator {
  keyName : string;
  secret : string;
  algorithm : string
}.

(** The algorithm names of github.com/miekg/dns. *)
Definition HmacSHA1 : string := "hmac-sha1.".
Definition HmacSHA256 : string := "hmac-sha256.".
Definition HmacSHA512 : string := "hmac-sha512.".
Definition HmacMD5 : string := "hmac-md5.sig-alg.reg.int.".

(** [func (v *Validator) getAlgorithmName() string] *)
Definition getAlgorithmName (v : Validator) : string :=
  if String.eqb (algorithm v) "hmac-sha1" then HmacSHA1
  else if String.eqb (algorithm v) "hmac-sha256" then HmacSHA256
  else if String.eqb (algorithm v) "hmac-sha512" then HmacSHA512
  else if String.eqb (algorithm v) "hmac-md5" then HmacMD5
  else HmacSHA256.

(** The errors [Validate] returns. *)
Inductive ValidateError (PackErr VerifyErr : Type) :=
| NoTSIGRecord
| KeyNameMismatch (expected got : string)
| AlgorithmMismatch (expected got : string)
| PackFailed (e : PackErr)
| VerificationFailed (e : VerifyErr).
Arguments NoTSIGRecord {PackErr VerifyErr}.
Arguments KeyNameMismatch {PackErr VerifyErr} expected got.
Arguments AlgorithmMismatch {PackErr VerifyErr} expected got.
Arguments PackFailed {PackErr VerifyErr} e.
Arguments VerificationFailed {PackErr VerifyErr} e.

Section Validation.

(** [msg.Pack()] and [dns.TsigVerify(buf, secret, requestMAC, false)] of
    the DNS library, with the texts of their errors. *)
Variables (PackErr VerifyErr Bytes : Type).
Variable Pack : Msg -> Result PackErr Bytes.
Variable TsigVerify : Bytes -> string -> string -> option VerifyErr.
Variable packErrString : PackErr -> string.
Variable verifyErrString : VerifyErr -> string.

(** [func (v *Validator) Validate(msg *dns.Msg, requestMAC string) error] *)
Definition Validate (v : Validator) (msg : Msg) (requestMAC : string)
    : option (ValidateError PackErr VerifyErr) :=
  match IsTsig msg with
  | None => Some NoTSIGRecord
  | Some tsig =>
      if negb (String.eqb (TsigName tsig) (keyName v ++ ".")) &&
         negb (String.eqb (TsigName tsig) (keyName v))
      then Some (KeyNameMismatch (keyName v) (TsigName tsig))
      else
        let expectedAlg := getAlgorithmName v in
        if negb (String.eqb (Algorithm tsig) expectedAlg)
        then Some (AlgorithmMismatch expectedAlg (Algorithm tsig))
        else
          match Pack msg with
          | Err e => Some (PackFailed e)
          | Ok buf =>
              match TsigVerify buf (secret v) requestMAC with
              | Some e => Some (VerificationFailed e)
              | None => None
              end
          end
  end.

(** [err.Error()] of the errors built by [Validate] with [fmt.Errorf]. *)
Definition ErrorString (e : ValidateError PackErr VerifyErr) : string :=
  match e with
  | NoTSIGRecord => "message does not contain TSIG record"
  | KeyNameMismatch expected got =>
      "TSIG key name mismatch: expected " ++ expected ++ ", got " ++ got
  | AlgorithmMismatch expected got =>
      "TSIG algorithm mismatch: expected " ++ expected ++ ", got " ++ got
  | PackFailed e => "failed to pack message: " ++ packErrString e
  | VerificationFailed e => "TSIG verification failed: " ++ verifyErrString e
  end.

End Validation.

End Tsig.

(* ------------------------------------------------------------------ *)
(** ** An in-memory resource store, to run the reconciler on examples *)

Module MemStore.

(** Resources by name, plus the next resource version.  Empty names are
    refused as the dynamic client does ([name is required]). *)
Definition St : Type := (gmap string Unstructured * nat)%type.

Fixpoint version_string (n : nat) : string :=
  match n with O => "v" | S n => "v" ++ version_string n end.

Definition mem_get (st : St) (ns name : string) : Result StatusError Unstructured :=
  if String.eqb name "" then Err (StatusOther "name is required")
  else match st.1 !! name with Some o => Ok o | None => Err StatusNotFound end.

Definition mem_create (st : St) (ns : string) (o : Unstructured) : Result StatusError St :=
  if String.eqb (u_name o) "" then Err (StatusOther "name is required")
  else match st.1 !! u_name o with
       | Some _ => Err (StatusOther "already exists")
       | None => Ok (<[u_name o := SetResourceVersion (version_string st.2) o]> st.1, S st.2)
       end.

Definition mem_update (st : St) (ns : string) (o : Unstructured) : Result StatusError St :=
  match st.1 !! u_name o with
  | None => Err StatusNotFound
  | Some ex =>
      if String.eqb (u_resourceVersion ex) (u_resourceVersion o)
      then Ok (<[u_name o := SetResourceVersion (version_string st.2) o]> st.1, S st.2)
      else Err StatusConflict
  end.

Definition mem_delete (st : St) (ns name : string) : Result StatusError St :=
  if String.eqb name "" then Err (StatusOther "name is required")
  else match st.1 !! name with
       | Some _ => Ok (delete name st.1, st.2)
       | None => Err StatusNotFound
       end.

Global Instance mem_resources : ResourceInterface St :=
  { Get := mem_get; Create := mem_create; UpdateRes := mem_update; Delete := mem_delete }.

Definition empty : St := (∅, O).

End MemStore.

(* ------------------------------------------------------------------ *)
(** ** More of Go's [strings] and [strconv], for the configuration loader

    A Go string is a sequence of bytes, here a [string] of [ascii] bytes.
    [strings.TrimSpace] removes the leading and trailing runes for which
    [unicode.IsSpace] holds, decoding the bytes as UTF-8: the ASCII
    spaces '\t', '\n', '\v', '\f', '\r', ' ' (one byte each), U+0085 and
    U+00A0 (two bytes) and U+1680, U+2000..U+200A, U+2028, U+2029, U+202F,
    U+205F and U+3000 (three bytes).  Each of these has exactly one valid
    UTF-8 encoding, and an invalid byte decodes as U+FFFD, which is not a
    space, so trimming a space rune is removing one of these byte
    sequences. *)

Module GoText.

(** A one-byte space: [asciiSpace[c] != 0]. *)
Definition isSpace (c : ascii) : bool :=
  let n := nat_of_ascii c in
  ((9 <=? n) && (n <=? 13) || (n =? 32))%nat.

(** A two-byte space: U+0085 is C2 85, U+00A0 is C2 A0. *)
Definition isSpace2 (c d : ascii) : bool :=
  let b0 := nat_of_ascii c in
  let b1 := nat_of_ascii d in
  ((b0 =? 194) && ((b1 =? 133) || (b1 =? 160)))%nat.

(** A three-byte space: U+1680 is E1 9A 80; U+2000..U+200A are E2 80 80..8A,
    U+2028, U+2029 and U+202F are E2 80 A8, A9 and AF; U+205F is E2 81 9F;
    U+3000 is E3 80 80. *)
Definition isSpace3 (c d e : ascii) : bool :=
  let b0 := nat_of_ascii c in
  let b1 := nat_of_ascii d in
  let b2 := nat_of_ascii e in
  ((b0 =? 225) && (b1 =? 154) && (b2 =? 128) ||
   (b0 =? 226) && (b1 =? 128) &&
     ((128 <=? b2) && (b2 <=? 138) || (b2 =? 168) || (b2 =? 169) || (b2 =? 175)) ||
   (b0 =? 226) && (b1 =? 129) && (b2 =? 159) ||
   (b0 =? 227) && (b1 =? 128) && (b2 =? 128))%nat.

(** [strings.TrimLeftFunc(s, unicode.IsSpace)]: drop the space rune the
    string starts with, as long as there is one. *)
Fixpoint TrimLeftSpace (s : string) : string :=
  match s with
  | EmptyString => EmptyString
  | String c rest =>
      if isSpace c then TrimLeftSpace rest
      else match rest with
           | EmptyString => s
           | String d rest2 =>
               if isSpace2 c d then TrimLeftSpace rest2
               else match rest2 with
                    | EmptyString => s
                    | String e rest3 => if isSpace3 c d e then TrimLeftSpace rest3 else s
                    end
           end
  end.

(** The string is the encoding of one space rune. *)
Definition isSpaceRune (s : string) : bool :=
  match s with
  | String c EmptyString => isSpace c
  | String c (String d EmptyString) => isSpace2 c d
  | String c (String d (String e EmptyString)) => isSpace3 c d e
  | _ => false
  end.

(** [strings.TrimRightFunc(s, unicode.IsSpace)]: drop the space rune the
    string ends with, as long as there is one.  Read from the front: once
    [rest] is trimmed, [String c rest'] ends with a space rune only if it
    is one (the bytes after the first of a multi-byte space are all
    continuation bytes, which no space rune starts with). *)
Fixpoint TrimRightSpace (s : string) : string :=
  match s with
  | EmptyString => EmptyString
  | String c rest =>
      let rest' := TrimRightSpace rest in
      if isSpaceRune (String c rest') then EmptyString else String c rest'
  end.

(** [strings.TrimSpace(s)]: its ASCII fast path and its fall back to
    [strings.TrimFunc(s, unicode.IsSpace)] on the first non-ASCII byte
    both compute [TrimRightFunc(TrimLeftFunc(s))]. *)
Definition TrimSpace (s : string) : string := TrimRightSpace (TrimLeftSpace s).

(** [strings.Split(s, sep)] for a one-byte separator: [cur] is the field
    being read. *)
Fixpoint split_acc (sep : ascii) (s cur : string) : list string :=
  match s with
  | EmptyString => [cur]
  | String c rest =>
      if Ascii.eqb c sep then cur :: split_acc sep rest EmptyString
      else split_acc sep rest (cur ++ String c EmptyString)
  end%list.

Definition Split (s : string) (sep : ascii) : list string := split_acc sep s EmptyString.

(** The text before and after the first [sep], if there is one. *)
Fixpoint Cut (s : string) (sep : ascii) : option (string * string) :=
  match s with
  | EmptyString => None
  | String c rest =>
      if Ascii.eqb c sep then Some (EmptyString, rest)
      else match Cut rest sep with
           | Some (before, after) => Some (String c before, after)
           | None => None
           end
  end.

(** [strings.SplitN(s, sep, 2)] for a one-byte separator. *)
Definition SplitN2 (s : string) (sep : ascii) : list string :=
  match Cut s sep with
  | Some (before, after) => [before; after]
  | None => [s]
  end.

(** A decimal digit [c - '0'], when [c] is one. *)
Definition digitVal (c : ascii) : option Z :=
  let n := nat_of_ascii c in
  if ((48 <=? n) && (n <=? 57))%nat then Some (Z.of_nat (n - 48)) else None.

Fixpoint parseDigits (s : string) (acc : Z) : option Z :=
  match s with
  | EmptyString => Some acc
  | String c rest =>
      match digitVal c with
      | Some d => parseDigits rest (acc * 10 + d)%Z
      | None => None
      end
  end.

(** [strconv.Atoi(s)] with a 64-bit [int]: an optional sign, then one or
    more decimal digits (no underscores in base 10), and the value within
    [-2^63, 2^63-1]; [None] is a non-nil error. *)
Definition Atoi (s : string) : option Z :=
  let '(neg, body) :=
    match s with
    | String c rest =>
        if Ascii.eqb c "-" then (true, rest)
        else if Ascii.eqb c "+" then (false, rest)
        else (false, s)
    | EmptyString => (false, s)
    end in
  match body with
  | EmptyString => None
  | _ =>
      match parseDigits body 0 with
      | None => None
      | Some n =>
          let v := (if neg then - n else n)%Z in
          if ((- 2 ^ 63 <=? v) && (v <=? 2 ^ 63 - 1))%Z then Some v else None
      end
  end.

End GoText.

Import GoText.

(* ------------------------------------------------------------------ *)
(** ** pkg/config: loading and validating the configuration *)

Module ConfigEnv.

(** The process environment; an unset variable reads as "". *)
Definition Env : Type := gmap string string.

(** [os.Getenv(key)] *)
Definition Getenv (env : Env) (key : string) : string := default "" (env !! key).

(** [func getEnv(key, defaultValue string) string] *)
Definition getEnv (env : Env) (key defaultValue : string) : string :=
  let value := Getenv env key in
  if negb (String.eqb value "") then value else defaultValue.

(** [func getEnvInt(key string, defaultValue int) int] *)
Definition getEnvInt (env : Env) (key : string) (defaultValue : Z) : Z :=
  let value := Getenv env key in
  if negb (String.eqb value "") then
    match Atoi value with Some intValue => intValue | None => defaultValue end
  else defaultValue.

(** The [for _, part := range parts] loop of [getEnvSlice]. *)
Fixpoint keep_trimmed (parts : list string) : list string :=
  match parts with
  | [] => []
  | part :: rest =>
      let trimmed := TrimSpace part in
      if negb (String.eqb trimmed "") then trimmed :: keep_trimmed rest
      else keep_trimmed rest
  end.

(** [func getEnvSlice(key, separator string) []string], for a one-byte
    separator. *)
Definition getEnvSlice (env : Env) (key : string) (separator : ascii) : list string :=
  let value := Getenv env key in
  if String.eqb value "" then []
  else keep_trimmed (Split value separator).

(** One iteration of the [for _, pair := range pairs] loop of [getEnvMap]. *)
Definition add_pair (kvSeparator : ascii) (result : gmap string string) (pair : string)
    : gmap string string :=
  let trimmed := TrimSpace pair in
  if negb (String.eqb trimmed "") then
    match SplitN2 trimmed kvSeparator with
    | [p0; p1] =>
        let k := TrimSpace p0 in
        let v := TrimSpace p1 in
        if negb (String.eqb k "") then <[k := v]> result else result
    | _ => result
    end
  else result.

(** [func getEnvMap(key, pairSeparator, kvSeparator string) map[string]string],
    for one-byte separators. *)
Definition getEnvMap (env : Env) (key : string) (pairSeparator kvSeparator : ascii)
    : gmap string string :=
  let value := Getenv env key in
  if String.eqb value "" then ∅
  else fold_left (add_pair kvSeparator) (Split value pairSeparator) ∅.

(** The errors [Validate] returns. *)
Inductive ConfigError :=
| TSIGKeyRequired
| TSIGSecretRequired
| NoAllowedZones
| PortOutOfRange.

(** [func (c *Config) Validate() error] *)
Definition Validate (c : Config.Config) : option ConfigError :=
  if String.eqb (Config.TSIGKey c) "" then Some TSIGKeyRequired
  else if String.eqb (Config.TSIGSecret c) "" then Some TSIGSecretRequired
  else if (length (Config.AllowedZones c) =? 0)%nat then Some NoAllowedZones
  else if ((Config.Port c <? 1) || (65535 <? Config.Port c))%Z then Some PortOutOfRange
  else None.

(** [func LoadConfig() ( *Config, error)], reading [env]. *)
Definition LoadConfig (env : Env) : Result ConfigError Config.Config :=
  let cfg := Config.mkConfig
    (getEnv env "LISTEN_ADDR" "0.0.0.0")
    (getEnvInt env "PORT" 5353)
    (getEnv env "TSIG_KEY" "opnsense-ddns")
    (getEnv env "TSIG_SECRET" "changeme")
    (getEnv env "TSIG_ALGORITHM" "hmac-sha256")
    (getEnv env "NAMESPACE" "default")
    (getEnvSlice env "ALLOWED_ZONES" ",")
    (getEnvMap env "CUSTOM_LABELS" "," "=")
    (getEnv env "LOG_LEVEL" "info") in
  match Validate cfg with
  | Some err => Err err
  | None => Ok cfg
  end.

End ConfigEnv.

(* ------------------------------------------------------------------ *)
(** ** cmd/server: the message filter installed on the DNS servers *)

Module Server.

(** [dns.MsgAcceptAction] *)
Inductive MsgAcceptAction := MsgAccept | MsgReject | MsgIgnore | MsgRejectNotImplemented.

(** The [msgAccept] closure of [main], on the 16-bit [dh.Bits] of the
    header. *)
Definition msgAccept (bits : Z) : MsgAcceptAction :=
  if negb (Z.eqb (Z.land bits 32768) 0) then MsgIgnore
  else
    let opcode := Z.land (Z.shiftr bits 11) 15 in
    if ((opcode =? OpcodeQuery) || (opcode =? OpcodeNotify) || (opcode =? OpcodeUpdate))%Z
    then MsgAccept
    else MsgRejectNotImplemented.

End Server.

(* ------------------------------------------------------------------ *)
(** ** internal/handler: the key name of a signed reply *)

Module ReplyKey.

(** The key name [writeResponse] passes to [msg.SetTsig]:
    [keyName := h.config.TSIGKey; if keyName[len(keyName)-1] != '.' { keyName = keyName + "." }].
    [None] is the index-out-of-range panic on an empty key. *)
Definition responseKeyName (cfg : Config.Config) : option string :=
  let keyName := Config.TSIGKey cfg in
  match String.get (String.length keyName - 1) keyName with
  | None => None
  | Some c => if negb (Ascii.eqb c ".") then Some (keyName ++ ".") else Some keyName
  end.

End ReplyKey.

(* ------------------------------------------------------------------ *)
(** ** Concrete inputs *)

Module Samples.

Definition cfg (zones : list string) : Config.Config :=
  Config.mkConfig "0.0.0.0" 5353 "opnsense-ddns" "bXktc2VjcmV0LWtleQ==" "hmac-sha256"
    "default" zones ∅ "info".

Definition router_rr : RR :=
  mkRR (mkHeader "router.example.com." TypeA ClassINET 300) (BodyA (Some "192.168.1.1")).

Definition router_upd : DNSUpdate :=
  mkDNSUpdate UpdateTypeCreate TypeA "router.example.com." "example.com."
    (Some "192.168.1.1") 300.



Definition update_msg (zone : string) (rrs : list RR) : Msg :=
  mkMsg OpcodeUpdate [mkQuestion zone] rrs None.

Definition client : Client := mkClient "default" ∅.

Definition sender : string := "192.168.1.10:5353".

End Samples.

Example ex_zone_evil : Config.IsZoneAllowed (Samples.cfg ["example.com"]) "evilexample.com." = false.
Proof. reflexivity. Qed.
Example ex_zone_sub : Config.IsZoneAllowed (Samples.cfg ["example.com"]) "sub.example.com" = true.
Proof. reflexivity. Qed.
Example ex_parse_router : parseRR Samples.router_rr "example.com." = Ok (Some Samples.router_upd).
Proof. reflexivity. Qed.
Example ex_hostname : GetHostname Samples.router_upd = "router".
Proof. reflexivity. Qed.
Example ex_sanitize : sanitizeResourceName "Test_Host.example.com." = "test-host-example-com".
Proof. vm_compute. reflexivity. Qed.
Example ex_sanitize_at : sanitizeResourceName "@" = "".
Proof. vm_compute. reflexivity. Qed.
Example ex_label : sanitizeLabel "example.com." = "example-com".
Proof. vm_compute. reflexivity. Qed.
Example ex_serve_twice :
  let '(r1, st1) := Handler.ServeDNS (Samples.cfg ["example.com"]) Samples.client Samples.sender
                      (Samples.update_msg "example.com." [Samples.router_rr]) MemStore.empty in
  let '(r2, st2) := Handler.ServeDNS (Samples.cfg ["example.com"]) Samples.client Samples.sender
                      (Samples.update_msg "example.com." [Samples.router_rr]) st1 in
  Handler.Rcode r1 = RcodeSuccess /\ Handler.Rcode r2 = RcodeSuccess /\ st2 = st1 /\
  st1.2 = 1%nat.
Proof. vm_compute. repeat split. Qed.
Example ex_serve_refused :
  Handler.Rcode (fst (Handler.ServeDNS (Samples.cfg ["example.com"]) Samples.client Samples.sender
                 (Samples.update_msg "notallowed.com." [Samples.router_rr]) MemStore.empty))
  = RcodeRefused.
Proof. reflexivity. Qed.

(* ------------------------------------------------------------------ *)
(** ** The authorizer *)

Module ZoneProofs.
Import Config.

Lemma ensure_dot_suffix (z : string) : HasSuffix (ensure_dot z) "." = true.
Proof.
  unfold ensure_dot. destruct (HasSuffix z ".") eqn:E; [exact E|apply HasSuffix_app].
Qed.

Lemma ensure_dot_id (z : string) : HasSuffix z "." = true -> ensure_dot z = z.
Proof. unfold ensure_dot. now intros ->. Qed.

Lemma zone_loop_spec (zone : string) (allowed : list string) :
  zone_loop zone allowed = true <->
  exists a, In a allowed /\
    (zone = ensure_dot a \/ HasSuffix zone ("." ++ ensure_dot a) = true).
Proof.
  induction allowed as [|a rest IH]; simpl.
  - split; [discriminate | intros (? & [] & _)].
  - destruct (String.eqb zone (ensure_dot a) || HasSuffix zone ("." ++ ensure_dot a))
      eqn:E.
    + split; [intros _|reflexivity].
      exists a. split; [left; reflexivity|].
      apply orb_true_iff in E as [E|E]; [left; now apply String.eqb_eq | now right].
    + rewrite IH. split.
      * intros (b & Hin & Hb). exists b. split; [now right|exact Hb].
      * intros (b & [<-|Hin] & Hb); [|exists b; now split].
        exfalso. apply orb_false_iff in E as [E1 E2].
        destruct Hb as [Hb|Hb]; [apply String.eqb_neq in E1; contradiction|congruence].
Qed.

(** C1: [IsZoneAllowed] normalises the requested zone and every allowed
    zone by appending a dot when it does not end with one, and accepts
    exactly when the normalised zone equals a normalised allowed zone or
    ends with "." followed by one; "evilexample.com." is refused for
    ["example.com"] while "sub.example.com" and "example.com" are
    accepted. *)
Theorem IsZoneAllowed_full_label_match (c : Config) (zone : string) :
  (IsZoneAllowed c zone = true <->
     exists a, In a (AllowedZones c) /\
       (ensure_dot zone = ensure_dot a \/
        HasSuffix (ensure_dot zone) ("." ++ ensure_dot a) = true)) /\
  (forall z, HasSuffix (ensure_dot z) "." = true) /\
  (forall z, HasSuffix z "." = true -> ensure_dot z = z) /\
  (forall z, HasSuffix z "." = false -> ensure_dot z = z ++ ".") /\
  (AllowedZones c = ["example.com"] ->
     IsZoneAllowed c "evilexample.com." = false /\
     IsZoneAllowed c "sub.example.com" = true /\
     IsZoneAllowed c "example.com" = true).
Proof.
  split; [apply zone_loop_spec|].
  split; [apply ensure_dot_suffix|].
  split; [apply ensure_dot_id|].
  split; [intros z Hz; unfold ensure_dot; now rewrite Hz|].
  intros Hz. unfold IsZoneAllowed. rewrite Hz. repeat split; reflexivity.
Qed.

Lemma IsZoneAllowed_full_label_match_witness :
  AllowedZones (Samples.cfg ["example.com"]) = ["example.com"] /\
  IsZoneAllowed (Samples.cfg ["example.com"]) "evilexample.com." = false.
Proof.
  split; [reflexivity|].
  apply (proj2 (proj2 (proj2 (proj2
           (IsZoneAllowed_full_label_match (Samples.cfg ["example.com"]) "x"))))).
  reflexivity.
Defined.

End ZoneProofs.

(* ------------------------------------------------------------------ *)
(** ** The UPDATE parser *)

Module ParserProofs.

(** The address a record carries: the address field of the [*dns.A] or
    [*dns.AAAA] matching its type, nil for a record of another dynamic
    type or one decoded without RDATA. *)
Definition rr_address (rr : RR) : option Dns.IP :=
  if N.eqb (Rrtype (Hdr rr)) TypeA then
    match Body rr with BodyA a => a | _ => None end
  else if N.eqb (Rrtype (Hdr rr)) TypeAAAA then
    match Body rr with BodyAAAA a => a | _ => None end
  else None.






Lemma parseRR_intent (rr : RR) (zone : string) (u : DNSUpdate) :
  parseRR rr zone = Ok (Some u) ->
  IP u = rr_address rr /\
  Update.Name u = Dns.Name (Hdr rr) /\ Zone u = zone /\ TTL u = Ttl (Hdr rr) /\
  RecordType u = Rrtype (Hdr rr) /\
  (Rrtype (Hdr rr) = TypeA \/ Rrtype (Hdr rr) = TypeAAAA) /\
  ((Type_ u = UpdateTypeCreate /\ Class (Hdr rr) = ClassINET /\ Ttl (Hdr rr) <> 0%N)
   \/ (Type_ u = UpdateTypeDelete /\
       (Class (Hdr rr) = ClassANY \/ Class (Hdr rr) = ClassNONE \/
        (Class (Hdr rr) = ClassINET /\ Ttl (Hdr rr) = 0%N)))).
Proof.
  destruct rr as [[nm ty cl ttl] body]. unfold parseRR, rr_address; simpl.
  destruct (N.eqb_spec cl ClassANY) as [->|Hany];
  [|destruct (N.eqb_spec cl ClassNONE) as [->|Hnone];
    [|destruct (N.eqb_spec cl ClassINET) as [->|Hin]; [|discriminate]]];
  (destruct (N.eqb_spec ty TypeA) as [->|HA];
   [|destruct (N.eqb_spec ty TypeAAAA) as [->|HAAAA]; [|discriminate]]);
  try (destruct (N.eqb_spec ttl 0) as [->|Httl]);
  destruct body; simpl; try discriminate; intros Hu; inversion Hu; subst; clear Hu;
  repeat split; auto; try tauto.
Qed.







End ParserProofs.

(* ------------------------------------------------------------------ *)
(** ** The dispatcher *)

Module HandlerProofs.
Import Handler.

Section Dispatch.
Context {St : Type} `{ResourceInterface St}.

(** The loop applies a concatenation of intents as the first part, then,
    if nothing failed, the second part from the state the first left. *)
Lemma applyUpdates_app (k : Client) (sender : string) (l1 l2 : list DNSUpdate) (st : St) :
  applyUpdates k sender (l1 ++ l2)%list st =
  match applyUpdates k sender l1 st with
  | (st1, None) => applyUpdates k sender l2 st1
  | (st1, Some e) => (st1, Some e)
  end.
Proof.
  revert st. induction l1 as [|u l1 IH]; intros st; simpl; [reflexivity|].
  destruct (ApplyUpdate k sender u st) as [st' [b [e|]]]; [reflexivity|apply IH].
Qed.

Lemma Parse_no_intents (r : Msg) (q : Question) (qs : list Question) :
  Opcode r = OpcodeUpdate -> QuestionSection r = q :: qs -> collect (Ns r) (QName q) = [] ->
  Parse r = Err NoValidUpdates.
Proof. intros Hop Hq Hc. unfold Parse. rewrite Hop, Hq; simpl. now rewrite Hc. Qed.

Lemma Parse_intents (r : Msg) (q : Question) (qs : list Question) (us : list DNSUpdate) :
  Opcode r = OpcodeUpdate -> QuestionSection r = q :: qs -> collect (Ns r) (QName q) = us ->
  us <> [] -> Parse r = Ok us.
Proof.
  intros Hop Hq Hc Hne. unfold Parse. rewrite Hop, Hq; simpl. rewrite Hc.
  destruct us; [congruence|reflexivity].
Qed.

(** C3: [ServeDNS] answers with the status of the first failing stage:
    NotImplemented, unsigned, for a non-UPDATE opcode; FormatError without
    a zone section; Refused for a zone that is not allowed; FormatError
    when parsing fails, in particular when no intent was produced;
    ServerFailure at the first intent whose application fails, leaving the
    store as that application left it after the earlier intents, with no
    later intent applied and nothing undone; Success when every intent
    applied.  Intents are applied in the order of the update section, and
    no store operation happens before the apply stage. *)
Theorem ServeDNS_first_failing_stage (cfg : Config.Config) (k : Client) (sender : string)
    (r : Msg) (st : St) :
  let mac := match IsTsig r with Some t => MAC t | None => "" end in
  (Opcode r <> OpcodeUpdate ->
     ServeDNS cfg k sender r st = (mkResponse RcodeNotImplemented None, st)) /\
  (Opcode r = OpcodeUpdate -> QuestionSection r = [] ->
     ServeDNS cfg k sender r st = (writeResponse RcodeFormatError mac, st)) /\
  (forall q qs, Opcode r = OpcodeUpdate -> QuestionSection r = q :: qs ->
     Config.IsZoneAllowed cfg (QName q) = false ->
     ServeDNS cfg k sender r st = (writeResponse RcodeRefused mac, st)) /\
  (forall q qs, Opcode r = OpcodeUpdate -> QuestionSection r = q :: qs ->
     Config.IsZoneAllowed cfg (QName q) = true -> collect (Ns r) (QName q) = [] ->
     Parse r = Err NoValidUpdates /\
     ServeDNS cfg k sender r st = (writeResponse RcodeFormatError mac, st)) /\
  (forall (q : Question) (qs : list Question) (pre : list DNSUpdate) (u : DNSUpdate)
     (post : list DNSUpdate) (st1 st2 : St) (changed : bool) (e : ClientError),
     Opcode r = OpcodeUpdate -> QuestionSection r = q :: qs ->
     Config.IsZoneAllowed cfg (QName q) = true ->
     collect (Ns r) (QName q) = (pre ++ u :: post)%list ->
     applyUpdates k sender pre st = (st1, None) ->
     ApplyUpdate k sender u st1 = (st2, (changed, Some e)) ->
     ServeDNS cfg k sender r st = (writeResponse RcodeServerFailure mac, st2)) /\
  (forall q qs st', Opcode r = OpcodeUpdate -> QuestionSection r = q :: qs ->
     Config.IsZoneAllowed cfg (QName q) = true -> collect (Ns r) (QName q) <> [] ->
     applyUpdates k sender (collect (Ns r) (QName q)) st = (st', None) ->
     ServeDNS cfg k sender r st = (writeResponse RcodeSuccess mac, st')) /\
  (forall (l1 l2 : list DNSUpdate) (st0 : St), applyUpdates k sender (l1 ++ l2)%list st0 =
     match applyUpdates k sender l1 st0 with
     | (st1, None) => applyUpdates k sender l2 st1
     | (st1, Some e) => (st1, Some e)
     end).
Proof.
  cbv zeta. refine (conj _ (conj _ (conj _ (conj _ (conj _ (conj _ _)))))).
  - intros Hop. unfold ServeDNS. apply Z.eqb_neq in Hop. now rewrite Hop.
  - intros Hop Hq. unfold ServeDNS. rewrite Hop, Hq. reflexivity.
  - intros q qs Hop Hq Hz. unfold ServeDNS. rewrite Hop, Hq; simpl. now rewrite Hz.
  - intros q qs Hop Hq Hz Hc. split; [apply (Parse_no_intents r q qs Hop Hq Hc)|].
    unfold ServeDNS.
    rewrite (Parse_no_intents r q qs Hop Hq Hc), Hop, Hq; simpl. now rewrite Hz.
  - intros q qs pre u post st1 st2 changed e Hop Hq Hz Hc Hpre Hu. unfold ServeDNS.
    rewrite (Parse_intents r q qs _ Hop Hq Hc) by (destruct pre; discriminate).
    rewrite Hop, Hq; simpl. rewrite Hz; simpl.
    rewrite applyUpdates_app, Hpre; simpl. now rewrite Hu.
  - intros q qs st' Hop Hq Hz Hne Hall. unfold ServeDNS.
    rewrite (Parse_intents r q qs _ Hop Hq eq_refl Hne), Hop, Hq; simpl. rewrite Hz; simpl.
    now rewrite Hall.
  - intros l1 l2 st0. apply applyUpdates_app.
Qed.

End Dispatch.

Lemma ServeDNS_first_failing_stage_witness :
  let msg := Samples.update_msg "example.com." [Samples.router_rr] in
  ServeDNS (Samples.cfg ["example.com"]) Samples.client Samples.sender msg MemStore.empty =
  (writeResponse RcodeSuccess "",
   (applyUpdates Samples.client Samples.sender [Samples.router_upd] MemStore.empty).1).
Proof.
  cbv zeta.
  apply (proj1 (proj2 (proj2 (proj2 (proj2 (proj2
           (ServeDNS_first_failing_stage (Samples.cfg ["example.com"]) Samples.client
              Samples.sender (Samples.update_msg "example.com." [Samples.router_rr])
              MemStore.empty))))))
          (mkQuestion "example.com.") []);
    first [reflexivity | discriminate | vm_compute; reflexivity].
Defined.

End HandlerProofs.

(* ------------------------------------------------------------------ *)
(** ** The reconciler *)

Module ReconcilerProofs.


Section Store.
Context {St : Type} `{ResourceInterface St}.

(** C4: for a create or update intent, when the store has no resource of
    the derived name and accepts the creation, [ApplyUpdate] creates it
    and reports [changed = true]; when the store then returns the labels
    and spec it was given, applying the same intent again for the same
    sender writes nothing, leaves the store as the first call left it and
    reports [changed = false].  When the existing resource's labels or
    spec differ from the desired ones, the update is sent with the
    existing resource's [resourceVersion] and [changed = true] is
    reported when the store accepts it. *)
Theorem ApplyUpdate_upsert_idempotent (c : Client) (sender : string) (upd : DNSUpdate) :
  let d := desiredEndpoint c sender upd in
  let name := resourceNameOf upd in
  (Type_ upd = UpdateTypeCreate \/ Type_ upd = UpdateTypeUpdate) ->
  (forall (st st1 : St),
     Get st (namespace c) name = Err StatusNotFound ->
     Create st (namespace c) d = Ok st1 ->
     (exists o, Get st1 (namespace c) name = Ok o /\
                u_labels o = u_labels d /\ u_spec o = u_spec d) ->
     ApplyUpdate c sender upd st = (st1, (true, None)) /\
     ApplyUpdate c sender upd st1 = (st1, (false, None))) /\
  (forall (st : St) (ex : Unstructured),
     Get st (namespace c) name = Ok ex ->
     (u_labels ex <> u_labels d \/ u_spec ex <> u_spec d) ->
     ApplyUpdate c sender upd st =
       match UpdateRes st (namespace c) (SetResourceVersion (u_resourceVersion ex) d) with
       | Ok st' => (st', (true, None))
       | Err e => (st, (false, Some (FailedUpdate e)))
       end).
Proof.
  cbv zeta. intros Hty.
  assert (Hap : forall st, ApplyUpdate c sender upd st = createOrUpdateEndpoint c sender upd st)
    by (intros st; unfold ApplyUpdate; destruct Hty as [-> | ->]; reflexivity).
  split.
  - intros st st1 Hget Hcreate (o & Hget1 & Hl & Hs).
    rewrite !Hap. unfold createOrUpdateEndpoint. rewrite Hget, Hget1; simpl.
    rewrite Hcreate. split; [reflexivity|].
    unfold compareEndpoint. rewrite Hl, Hs, !bool_decide_eq_true_2 by reflexivity.
    reflexivity.
  - intros st ex Hget Hdiff. rewrite Hap. unfold createOrUpdateEndpoint. rewrite Hget.
    unfold compareEndpoint.
    destruct Hdiff as [Hd|Hd];
      [rewrite (bool_decide_eq_false_2 _ Hd) | rewrite (bool_decide_eq_false_2 _ Hd), andb_false_r];
      reflexivity.
Qed.

(** C5: for a delete intent, [ApplyUpdate] deletes the resource of the
    derived name; a not-found answer of the store counts as success (no
    error, store untouched); every other delete error is returned,
    wrapped as [FailedDelete]. *)
Theorem ApplyUpdate_delete_not_found_ok (c : Client) (sender : string) (upd : DNSUpdate)
    (st : St) :
  Type_ upd = UpdateTypeDelete ->
  (Delete st (namespace c) (resourceNameOf upd) = Err StatusNotFound ->
     ApplyUpdate c sender upd st = (st, (true, None))) /\
  (forall e, Delete st (namespace c) (resourceNameOf upd) = Err e -> e <> StatusNotFound ->
     ApplyUpdate c sender upd st = (st, (true, Some (FailedDelete e)))) /\
  (forall st', Delete st (namespace c) (resourceNameOf upd) = Ok st' ->
     ApplyUpdate c sender upd st = (st', (true, None))).
Proof.
  intros Hty. unfold ApplyUpdate, deleteEndpoint. rewrite Hty.
  split; [|split].
  - intros Hd. now rewrite Hd.
  - intros e Hd Hne. rewrite Hd. destruct e; [congruence|reflexivity|reflexivity].
  - intros st' Hd. now rewrite Hd.
Qed.

End Store.

Definition created_store : MemStore.St :=
  match MemStore.mem_create MemStore.empty "default"
          (desiredEndpoint Samples.client Samples.sender Samples.router_upd) with
  | Ok st => st
  | Err _ => MemStore.empty
  end.

Lemma ApplyUpdate_upsert_idempotent_witness :
  ApplyUpdate Samples.client Samples.sender Samples.router_upd MemStore.empty
    = (created_store, (true, None)) /\
  ApplyUpdate Samples.client Samples.sender Samples.router_upd created_store
    = (created_store, (false, None)).
Proof.
  apply (proj1 (@ApplyUpdate_upsert_idempotent MemStore.St _ Samples.client Samples.sender
                  Samples.router_upd (or_introl eq_refl)) MemStore.empty created_store).
  - vm_compute. reflexivity.
  - vm_compute. reflexivity.
  - exists (SetResourceVersion (MemStore.version_string 0)
              (desiredEndpoint Samples.client Samples.sender Samples.router_upd)).
    split; [|split]; vm_compute; reflexivity.
Defined.

Definition delete_upd : DNSUpdate :=
  mkDNSUpdate UpdateTypeDelete TypeA "router.example.com." "example.com." None 0.

Lemma ApplyUpdate_delete_not_found_ok_witness :
  ApplyUpdate Samples.client Samples.sender delete_upd MemStore.empty
    = (MemStore.empty, (true, None)).
Proof.
  apply (proj1 (@ApplyUpdate_delete_not_found_ok MemStore.St _ Samples.client Samples.sender
                  delete_upd MemStore.empty eq_refl)).
  vm_compute. reflexivity.
Defined.





End ReconcilerProofs.

(* ------------------------------------------------------------------ *)
(** ** Resource names and label values *)

Module NameProofs.

(** The character steps of the identifier derivation as the spec words
    them, one pass each: map '.', '_' and ':' to '-' ... *)
Fixpoint map_separators (s : string) : string :=
  match s with
  | EmptyString => EmptyString
  | String c rest =>
      String (if Ascii.eqb c "." || Ascii.eqb c "_" || Ascii.eqb c ":" then "-"%char else c)
             (map_separators rest)
  end.

(** ... then drop every character that is not [a-z], [0-9] or '-'. *)
Fixpoint drop_invalid (s : string) : string :=
  match s with
  | EmptyString => EmptyString
  | String c rest =>
      if isAlphanumericLower c || Ascii.eqb c "-" then String c (drop_invalid rest)
      else drop_invalid rest
  end.

Definition truncate (n : nat) (s : string) : string :=
  if (n <? String.length s)%nat then prefix_upto n s else s.

(** The identifier derivation read literally from the claim, applied to
    the intent's record name: the marker prefix whenever the result does
    not start with [a-z0-9]. *)
Definition claim_identifier (s : string) : string :=
  let n := drop_invalid (map_separators (ToLower (drop_trailing_dot s))) in
  let n := match n with
           | String c _ => if isAlphanumericLower c then n else "dns-" ++ n
           | EmptyString => "dns-" ++ n
           end in
  truncate 253 n.

(** The derivation the code performs, in the same steps: the marker prefix
    only for a non-empty result that does not start with [a-z0-9]. *)
Definition hostname_identifier (s : string) : string :=
  let n := drop_invalid (map_separators (ToLower (drop_trailing_dot s))) in
  let n := match n with
           | String c _ => if isAlphanumericLower c then n else "dns-" ++ n
           | EmptyString => n
           end in
  truncate 253 n.

Definition label_value (s : string) : string :=
  truncate 63 (drop_invalid (map_separators (ToLower (drop_trailing_dot s)))).

Lemma k8s_runes_two_passes (s : string) : k8s_runes s = drop_invalid (map_separators s).
Proof.
  induction s as [|c s IH]; simpl; [reflexivity|].
  destruct (isAlphanumericLower c || Ascii.eqb c "-") eqn:Ekeep.
  - destruct (Ascii.eqb c "." || Ascii.eqb c "_" || Ascii.eqb c ":") eqn:Esep.
    + exfalso. revert Ekeep Esep. destruct c as [[] [] [] [] [] [] [] []]; vm_compute;
        congruence.
    + simpl. rewrite Ekeep, IH. reflexivity.
  - destruct (Ascii.eqb c "." || Ascii.eqb c "_" || Ascii.eqb c ":") eqn:Esep.
    + simpl. rewrite IH. reflexivity.
    + simpl. rewrite Ekeep, IH. reflexivity.
Qed.

Lemma length_prefix_upto (n : nat) (s : string) :
  (String.length (prefix_upto n s) <= n)%nat.
Proof.
  unfold prefix_upto. revert s. induction n as [|n IH]; intros s; simpl.
  - destruct s; simpl; lia.
  - destruct s; simpl; [lia|]. specialize (IH s). lia.
Qed.

Lemma length_truncate (n : nat) (s : string) : (String.length (truncate n s) <= n)%nat.
Proof.
  unfold truncate. destruct (Nat.ltb_spec n (String.length s)).
  - apply length_prefix_upto.
  - lia.
Qed.

(** C6 (as the code does it): the resource name of an intent is the
    derivation applied to its hostname [GetHostname] (the record name
    without the ".zone" suffix, "@" at the apex), not to its record name:
    strip a trailing dot, lower-case, map '.', '_' and ':' to '-', drop
    every other character outside [a-z0-9-], prepend "dns-" to a
    non-empty result that does not start with [a-z0-9], truncate to 253;
    a label value is strip, lower-case, map, drop and truncate to 63. *)
Theorem resourceName_from_hostname (upd : DNSUpdate) :
  resourceNameOf upd = hostname_identifier (GetHostname upd) /\
  (forall s, sanitizeResourceName s = hostname_identifier s) /\
  (forall s, sanitizeLabel s = label_value s) /\
  (String.length (resourceNameOf upd) <= 253)%nat /\
  (forall s, String.length (sanitizeLabel s) <= 63)%nat.
Proof.
  assert (Hname : forall s, sanitizeResourceName s = hostname_identifier s).
  { intros s. unfold sanitizeResourceName, hostname_identifier, dnsNameToK8sName.
    rewrite k8s_runes_two_passes. unfold truncate.
    destruct (drop_invalid (map_separators (ToLower (drop_trailing_dot s)))) as [|c r];
      [reflexivity|destruct (isAlphanumericLower c); reflexivity]. }
  assert (Hlabel : forall s, sanitizeLabel s = label_value s).
  { intros s. unfold sanitizeLabel, label_value, dnsNameToK8sName.
    rewrite k8s_runes_two_passes. reflexivity. }
  split; [apply Hname|]. split; [exact Hname|]. split; [exact Hlabel|].
  split.
  - unfold resourceNameOf. rewrite Hname. apply length_truncate.
  - intros s. rewrite Hlabel. apply length_truncate.
Qed.

(** C6 as stated fails: for "router.example.com." in zone "example.com."
    the resource name is "router", not the derivation of the record name,
    "router-example-com". *)
Lemma resourceName_not_from_record_name :
  resourceNameOf Samples.router_upd = "router" /\
  claim_identifier (Update.Name Samples.router_upd) = "router-example-com" /\
  resourceNameOf Samples.router_upd <> claim_identifier (Update.Name Samples.router_upd).
Proof.
  split; [vm_compute; reflexivity|]. split; [vm_compute; reflexivity|].
  vm_compute. discriminate.
Qed.

(** C10: when the record name equals the zone once the trailing dot is
    trimmed from both, [GetHostname] returns "@", sanitising "@" gives the
    empty string, and the resource name the upsert and the delete address
    the store with is empty. *)
Theorem apex_resource_name_empty (c : Client) (sender : string) (upd : DNSUpdate) :
  TrimSuffix (Update.Name upd) "." = TrimSuffix (Zone upd) "." ->
  GetHostname upd = "@" /\
  sanitizeResourceName "@" = "" /\
  resourceNameOf upd = "" /\
  u_name (desiredEndpoint c sender upd) = "" /\
  (forall {St : Type} `{ResourceInterface St} (st : St),
     deleteEndpoint c upd st =
       match Delete st (namespace c) "" with
       | Ok st' => (st', None)
       | Err e => if negb (isNotFoundError e) then (st, Some (FailedDelete e)) else (st, None)
       end).
Proof.
  intros Heq.
  assert (Hh : GetHostname upd = "@").
  { unfold GetHostname. rewrite Heq.
    set (z := TrimSuffix (Zone upd) ".").
    rewrite (HasSuffix_longer z ("." ++ z))
      by (change (String.length ("." ++ z)) with (S (String.length z)); lia).
    rewrite String.eqb_refl. reflexivity. }
  assert (Hr : resourceNameOf upd = "") by (unfold resourceNameOf; rewrite Hh; reflexivity).
  split; [exact Hh|]. split; [reflexivity|]. split; [exact Hr|].
  split; [exact Hr|].
  intros St HR st. unfold deleteEndpoint. now rewrite Hr.
Qed.

Lemma apex_resource_name_empty_witness :
  resourceNameOf (mkDNSUpdate UpdateTypeCreate TypeA "example.com." "example.com."
                    (Some "192.168.1.1") 300) = "".
Proof.
  exact (proj1 (proj2 (proj2 (apex_resource_name_empty Samples.client Samples.sender
           (mkDNSUpdate UpdateTypeCreate TypeA "example.com." "example.com."
              (Some "192.168.1.1") 300) eq_refl)))).
Defined.

End NameProofs.

(* ------------------------------------------------------------------ *)
(** ** The TSIG validator *)

Module TsigProofs.
Import Tsig.

Section ValidateProofs.
Variables (PackErr VerifyErr Bytes : Type).
Variable Pack : Msg -> Result PackErr Bytes.
Variable TsigVerify : Bytes -> string -> string -> option VerifyErr.

Abbreviation validate := (Validate PackErr VerifyErr Bytes Pack TsigVerify).

(** C7 (as the code does it): [Validate] fails exactly when the message
    has no TSIG record, or its key name equals neither the configured key
    name followed by "." nor the configured key name, or its algorithm
    differs from the wire name [getAlgorithmName] of the configured
    algorithm, or packing the message fails, or [TsigVerify] with the
    secret fails; the first failing check names the error (a key name
    "wrong-key" against "opnsense-ddns" is a key name mismatch); and the
    secret itself never enters an error: changing the secret without
    changing the verifier's answer changes nothing in the result. *)
Theorem Validate_failure_conditions (v : Validator) (msg : Msg) (mac : string) :
  (validate v msg mac = None <->
     exists t buf, IsTsig msg = Some t /\
       (TsigName t = keyName v ++ "." \/ TsigName t = keyName v) /\
       Algorithm t = getAlgorithmName v /\
       Pack msg = Ok buf /\ TsigVerify buf (secret v) mac = None) /\
  (IsTsig msg = None -> validate v msg mac = Some NoTSIGRecord) /\
  (forall t, IsTsig msg = Some t ->
     TsigName t <> keyName v ++ "." -> TsigName t <> keyName v ->
     validate v msg mac = Some (KeyNameMismatch (keyName v) (TsigName t))) /\
  (forall t, IsTsig msg = Some t ->
     (TsigName t = keyName v ++ "." \/ TsigName t = keyName v) ->
     Algorithm t <> getAlgorithmName v ->
     validate v msg mac = Some (AlgorithmMismatch (getAlgorithmName v) (Algorithm t))) /\
  (forall t, IsTsig msg = Some t -> TsigName t = "wrong-key" -> keyName v = "opnsense-ddns" ->
     validate v msg mac = Some (KeyNameMismatch "opnsense-ddns" "wrong-key")) /\
  (forall s', (forall buf, TsigVerify buf (secret v) mac = TsigVerify buf s' mac) ->
     validate (mkValidator (keyName v) s' (algorithm v)) msg mac = validate v msg mac).
Proof.
  unfold Validate.
  assert (Hkey : forall t, IsTsig msg = Some t ->
            TsigName t <> keyName v ++ "." -> TsigName t <> keyName v ->
            validate v msg mac = Some (KeyNameMismatch (keyName v) (TsigName t))).
  { intros t Ht H1 H2. unfold Validate. rewrite Ht.
    apply String.eqb_neq in H1, H2. now rewrite H1, H2. }
  refine (conj _ (conj _ (conj Hkey (conj _ (conj _ _))))).
  - split.
    + destruct (IsTsig msg) as [t|]; [|discriminate].
      destruct (String.eqb_spec (TsigName t) (keyName v ++ ".")) as [Hk1|Hk1];
      destruct (String.eqb_spec (TsigName t) (keyName v)) as [Hk2|Hk2]; simpl;
        try discriminate;
      (destruct (String.eqb_spec (Algorithm t) (getAlgorithmName v)) as [Ha|Ha]; simpl;
        [|discriminate];
       destruct (Pack msg) as [buf|e]; [|discriminate];
       destruct (TsigVerify buf (secret v) mac) eqn:Ev; [discriminate|];
       intros _; exists t, buf; repeat split; auto).
    + intros (t & buf & Ht & Hk & Ha & Hp & Hv). rewrite Ht.
      assert (E : negb (String.eqb (TsigName t) (keyName v ++ ".")) &&
                  negb (String.eqb (TsigName t) (keyName v)) = false).
      { destruct Hk as [Hk|Hk]; rewrite Hk, String.eqb_refl; simpl;
          [reflexivity|apply andb_false_r]. }
      rewrite E, Ha, String.eqb_refl; simpl. now rewrite Hp, Hv.
  - intros Ht. now rewrite Ht.
  - intros t Ht Hk Ha. rewrite Ht.
    assert (E : negb (String.eqb (TsigName t) (keyName v ++ ".")) &&
                negb (String.eqb (TsigName t) (keyName v)) = false).
    { destruct Hk as [Hk|Hk]; rewrite Hk, String.eqb_refl; simpl;
        [reflexivity|apply andb_false_r]. }
    rewrite E. apply String.eqb_neq in Ha. now rewrite Ha.
  - intros t Ht Hn Hk. rewrite <- Hn, <- Hk. apply Hkey; [exact Ht| |];
      rewrite Hn, Hk; discriminate.
  - intros s' Hs. simpl.
    destruct (IsTsig msg) as [t|]; [|reflexivity].
    destruct (_ && _); [reflexivity|].
    unfold getAlgorithmName; simpl.
    destruct (negb _); [reflexivity|].
    destruct (Pack msg) as [buf|e]; [|reflexivity].
    now rewrite Hs.
Qed.

End ValidateProofs.

Definition sample_validator : Validator := mkValidator "opnsense-ddns" "TSIG" "hmac-sha256".

Definition signed_msg (key : string) : Msg :=
  mkMsg OpcodeUpdate [mkQuestion "example.com."] [] (Some (mkTSIG key HmacSHA256 "mac")).

Lemma Validate_failure_conditions_witness :
  Validate unit unit unit (fun _ => Ok tt) (fun _ _ _ => None)
    sample_validator (signed_msg "wrong-key") ""
  = Some (KeyNameMismatch "opnsense-ddns" "wrong-key").
Proof.
  apply (proj1 (proj2 (proj2 (proj2 (proj2
           (Validate_failure_conditions unit unit unit (fun _ => Ok tt) (fun _ _ _ => None)
              sample_validator (signed_msg "wrong-key") ""))))) (mkTSIG "wrong-key" HmacSHA256 "mac"));
    reflexivity.
Defined.

(** C7 as stated fails: with the shared secret "TSIG" (valid base64, and
    accepted by the configuration check), the error for a message without
    TSIG record contains the secret. *)
Lemma Validate_error_text_can_contain_secret :
  match Validate unit unit unit (fun _ => Ok tt) (fun _ _ _ => None)
          sample_validator (mkMsg OpcodeUpdate [mkQuestion "example.com."] [] None) "" with
  | Some e => Contains (ErrorString unit unit (fun _ => "") (fun _ => "") e)
                (secret sample_validator) = true
  | None => False
  end.
Proof. vm_compute. reflexivity. Qed.

End TsigProofs.

(* ------------------------------------------------------------------ *)
(** ** The configuration loader *)

Module EnvProofs.
Import ConfigEnv.

Lemma app_nil_l (s : string) : ("" ++ s)%string = s.
Proof. reflexivity. Qed.

Lemma app_cons (c : ascii) (a b : string) : (String c a ++ b)%string = String c (a ++ b).
Proof. reflexivity. Qed.

Lemma string_app_assoc (a b c : string) : ((a ++ b) ++ c = a ++ b ++ c)%string.
Proof. induction a as [|x a IH]; [reflexivity|exact (f_equal (String x) IH)]. Qed.

Lemma string_app_nil_r (a : string) : (a ++ "")%string = a.
Proof. induction a as [|x a IH]; [reflexivity|exact (f_equal (String x) IH)]. Qed.

(** [!strings.ContainsRune(s, sep)] *)
Fixpoint no_byte (sep : ascii) (s : string) : bool :=
  match s with
  | EmptyString => true
  | String c rest => negb (Ascii.eqb c sep) && no_byte sep rest
  end.

Lemma no_byte_app (sep : ascii) (a b : string) :
  no_byte sep (a ++ b) = no_byte sep a && no_byte sep b.
Proof.
  induction a as [|c a IH]; [reflexivity|].
  rewrite app_cons. simpl. now rewrite IH, andb_assoc.
Qed.

(** The string starts with the encoding of a space rune. *)
Definition starts_space (s : string) : bool :=
  match s with
  | EmptyString => false
  | String c rest =>
      isSpace c ||
      match rest with
      | EmptyString => false
      | String d rest2 =>
          isSpace2 c d ||
          match rest2 with
          | EmptyString => false
          | String e _ => isSpace3 c d e
          end
      end
  end.

Lemma TrimLeftSpace_suffix (s : string) : exists p, s = (p ++ TrimLeftSpace s)%string.
Proof.
  induction s as [s IH] using (well_founded_induction (Wf_nat.well_founded_ltof _ String.length)).
  unfold Wf_nat.ltof in IH. destruct s as [|c0 rest]; [exists ""; reflexivity|].
  simpl. destruct (isSpace c0).
  { destruct (IH rest ltac:(simpl; lia)) as [p Hp]. exists (String c0 p).
    rewrite app_cons, <- Hp. reflexivity. }
  destruct rest as [|d rest2]; [exists ""; reflexivity|].
  destruct (isSpace2 c0 d).
  { destruct (IH rest2 ltac:(simpl; lia)) as [p Hp]. exists (String c0 (String d p)).
    rewrite !app_cons, <- Hp. reflexivity. }
  destruct rest2 as [|e rest3]; [exists ""; reflexivity|].
  destruct (isSpace3 c0 d e); [|exists ""; reflexivity].
  destruct (IH rest3 ltac:(simpl; lia)) as [p Hp]. exists (String c0 (String d (String e p))).
  rewrite !app_cons, <- Hp. reflexivity.
Qed.

Lemma TrimRightSpace_prefix (s : string) : exists y, s = (TrimRightSpace s ++ y)%string.
Proof.
  induction s as [|c rest [y Hy]]; [exists ""; reflexivity|]. cbn [TrimRightSpace].
  destruct (isSpaceRune (String c (TrimRightSpace rest))).
  - exists (String c rest). reflexivity.
  - exists y. rewrite app_cons, <- Hy. reflexivity.
Qed.

Lemma starts_space_TrimLeftSpace (s : string) : starts_space (TrimLeftSpace s) = false.
Proof.
  induction s as [s IH] using (well_founded_induction (Wf_nat.well_founded_ltof _ String.length)).
  unfold Wf_nat.ltof in IH. destruct s as [|c0 rest]; [reflexivity|].
  simpl. destruct (isSpace c0) eqn:E0; [apply IH; simpl; lia|].
  destruct rest as [|d rest2]; [simpl; now rewrite E0|].
  destruct (isSpace2 c0 d) eqn:E1; [apply IH; simpl; lia|].
  destruct rest2 as [|e rest3]; [simpl; now rewrite E0, E1|].
  destruct (isSpace3 c0 d e) eqn:E2; [apply IH; simpl; lia|].
  simpl. now rewrite E0, E1, E2.
Qed.

Lemma TrimLeftSpace_stop (s : string) : starts_space s = false -> TrimLeftSpace s = s.
Proof.
  destruct s as [|c [|d [|e r]]]; cbn [starts_space TrimLeftSpace]; [reflexivity| | |].
  - rewrite orb_false_r. intros ->. reflexivity.
  - rewrite orb_false_r. intros H. apply orb_false_iff in H as [H0 H1].
    rewrite H0, H1. reflexivity.
  - intros H. apply orb_false_iff in H as [H0 H]. apply orb_false_iff in H as [H1 H2].
    rewrite H0, H1, H2. reflexivity.
Qed.

Lemma starts_space_app (p y : string) :
  starts_space p = true -> starts_space (p ++ y) = true.
Proof.
  destruct p as [|c [|d [|e r]]]; [discriminate| | |]; rewrite ?app_cons; cbn [starts_space];
    intros H.
  - rewrite orb_false_r in H. rewrite H. reflexivity.
  - rewrite orb_false_r in H. apply orb_true_iff in H as [H|H]; rewrite H; [reflexivity|].
    destruct (isSpace c); reflexivity.
  - exact H.
Qed.

Lemma TrimRightSpace_idem (s : string) : TrimRightSpace (TrimRightSpace s) = TrimRightSpace s.
Proof.
  induction s as [|c s IH]; cbn [TrimRightSpace]; [reflexivity|].
  destruct (isSpaceRune (String c (TrimRightSpace s))) eqn:E; [reflexivity|].
  cbn [TrimRightSpace]. rewrite IH, E. reflexivity.
Qed.

Lemma TrimSpace_idem (s : string) : TrimSpace (TrimSpace s) = TrimSpace s.
Proof.
  unfold TrimSpace. rewrite (TrimLeftSpace_stop (TrimRightSpace (TrimLeftSpace s))).
  - apply TrimRightSpace_idem.
  - destruct (starts_space (TrimRightSpace (TrimLeftSpace s))) eqn:E; [|reflexivity].
    destruct (TrimRightSpace_prefix (TrimLeftSpace s)) as [y Hy].
    apply (starts_space_app _ y) in E. rewrite <- Hy, starts_space_TrimLeftSpace in E.
    discriminate.
Qed.

(** A string [TrimSpace] leaves alone is left alone by both of its loops. *)
Lemma TrimSpace_fixed (s : string) :
  TrimSpace s = s -> TrimLeftSpace s = s /\ TrimRightSpace s = s.
Proof.
  unfold TrimSpace. intros H.
  destruct (TrimLeftSpace_suffix s) as [p Hp].
  destruct (TrimRightSpace_prefix (TrimLeftSpace s)) as [y Hy].
  assert (HL : TrimLeftSpace s = s).
  { destruct p as [|c p]; [rewrite app_nil_l in Hp; exact (eq_sym Hp)|].
    apply (f_equal String.length) in Hp, Hy. rewrite length_app in Hp, Hy.
    rewrite H in Hy. simpl in Hp. lia. }
  split; [exact HL|]. rewrite HL in H. exact H.
Qed.

(** An ASCII byte that is not a space: no space rune contains it. *)
Definition plain (x : ascii) : bool := (nat_of_ascii x <? 128)%nat && negb (isSpace x).

Ltac plain_byte x :=
  repeat match goal with
  | |- context [Nat.eqb (nat_of_ascii x) ?k] =>
      replace (Nat.eqb (nat_of_ascii x) k) with false by (symmetry; apply Nat.eqb_neq; lia)
  | |- context [Nat.leb ?k (nat_of_ascii x)] =>
      replace (Nat.leb k (nat_of_ascii x)) with false by (symmetry; apply Nat.leb_gt; lia)
  end;
  rewrite ?andb_false_r, ?andb_false_l, ?orb_false_r, ?orb_false_l.

(** No space rune ends in, or runs across, a plain byte. *)
Lemma isSpaceRune_plain (x : ascii) (a w : string) :
  plain x = true -> isSpaceRune (a ++ String x w) = false.
Proof.
  unfold plain. intros Hx. apply andb_true_iff in Hx as [Hlt Hsp].
  apply Nat.ltb_lt in Hlt. apply negb_true_iff in Hsp.
  destruct a as [|c [|d [|e [|i a']]]]; rewrite ?app_cons, ?app_nil_l;
    destruct w as [|f [|g [|h w']]]; cbn [isSpaceRune]; try reflexivity; try exact Hsp;
    unfold isSpace2, isSpace3; cbv zeta; plain_byte x; reflexivity.
Qed.

Lemma starts_space_plain (x : ascii) (k w : string) :
  plain x = true -> k <> "" -> starts_space k = false -> starts_space (k ++ String x w) = false.
Proof.
  unfold plain. intros Hx Hk. apply andb_true_iff in Hx as [Hlt _]. apply Nat.ltb_lt in Hlt.
  destruct k as [|c [|d [|e k']]]; [contradiction| | |]; rewrite ?app_cons; simpl String.append;
    [| |exact (fun H => H)]; unfold starts_space; intros H;
    apply orb_false_iff in H as [-> H]; simpl orb.
  - destruct w; unfold isSpace2, isSpace3; cbv zeta; plain_byte x; reflexivity.
  - rewrite orb_false_r in H. rewrite H. simpl orb. unfold isSpace3; cbv zeta.
    plain_byte x; reflexivity.
Qed.

Lemma TrimRightSpace_plain (x : ascii) (a w : string) :
  plain x = true -> TrimRightSpace (a ++ String x w) = (a ++ String x (TrimRightSpace w))%string.
Proof.
  intros Hx. induction a as [|c a IH].
  - rewrite !app_nil_l. cbn [TrimRightSpace].
    pose proof (isSpaceRune_plain x "" (TrimRightSpace w) Hx) as E. rewrite app_nil_l in E.
    rewrite E. reflexivity.
  - rewrite !app_cons. cbn [TrimRightSpace]. rewrite IH, <- app_cons.
    rewrite (isSpaceRune_plain x (String c a) (TrimRightSpace w) Hx). reflexivity.
Qed.

(** A key and a value without surrounding white space, joined by '=',
    have none either. *)
Lemma TrimSpace_kv (k v : string) :
  k <> "" -> TrimSpace k = k -> TrimSpace v = v ->
  TrimSpace (k ++ String "=" v) = (k ++ String "=" v)%string.
Proof.
  intros Hk Htk Htv.
  apply TrimSpace_fixed in Htk as [Hlk _]. apply TrimSpace_fixed in Htv as [_ Hrv].
  assert (Hs : starts_space k = false) by (rewrite <- Hlk; apply starts_space_TrimLeftSpace).
  unfold TrimSpace.
  rewrite TrimLeftSpace_stop by (apply starts_space_plain; [reflexivity|exact Hk|exact Hs]).
  rewrite TrimRightSpace_plain, Hrv by reflexivity. reflexivity.
Qed.

Lemma split_acc_app (sep : ascii) (z rest cur : string) :
  no_byte sep z = true -> split_acc sep (z ++ rest) cur = split_acc sep rest (cur ++ z).
Proof.
  revert cur. induction z as [|c z IH]; intros cur Hz.
  - now rewrite string_app_nil_r.
  - rewrite app_cons. simpl. simpl in Hz. apply andb_true_iff in Hz as [Hc Hz]. apply negb_true_iff in Hc.
    rewrite Hc, IH by exact Hz. now rewrite string_app_assoc.
Qed.

(** [strings.Split] undoes [strings.Join] when no part contains the
    separator. *)
Lemma Split_concat (sep : ascii) (z : string) (zs : list string) :
  Forall (fun z => no_byte sep z = true) (z :: zs) ->
  Split (String.concat (String sep "") (z :: zs)) sep = z :: zs.
Proof.
  unfold Split. revert z. induction zs as [|z2 zs IH]; intros z Hall;
    inversion Hall as [|? ? Hz Hrest]; subst.
  - simpl. rewrite <- (string_app_nil_r z) at 1. rewrite split_acc_app by exact Hz.
    reflexivity.
  - change (String.concat (String sep "") (z :: z2 :: zs))
      with (z ++ String sep "" ++ String.concat (String sep "") (z2 :: zs))%string.
    rewrite split_acc_app by exact Hz. rewrite app_cons. cbn [split_acc].
    rewrite Ascii.eqb_refl, !app_nil_l, IH by exact Hrest. reflexivity.
Qed.

Lemma concat_nonempty (sep : string) (z : string) (zs : list string) :
  z <> "" -> String.eqb (String.concat sep (z :: zs)) "" = false.
Proof. intros Hz. destruct z as [|c z]; [contradiction|]. destruct zs; reflexivity. Qed.

Lemma keep_trimmed_id (zs : list string) :
  Forall (fun z => z <> "" /\ TrimSpace z = z) zs -> keep_trimmed zs = zs.
Proof.
  induction 1 as [|z zs [Hne Ht] _ IH]; simpl; [reflexivity|].
  rewrite Ht. destruct (String.eqb_spec z ""); [contradiction|]. simpl. now rewrite IH.
Qed.

Lemma keep_trimmed_elems (parts : list string) (z : string) :
  In z (keep_trimmed parts) -> z <> "" /\ TrimSpace z = z.
Proof.
  induction parts as [|p parts IH]; simpl; [tauto|].
  destruct (String.eqb_spec (TrimSpace p) ""); simpl; [exact IH|].
  intros [<-|H]; [split; [assumption|apply TrimSpace_idem]|auto].
Qed.

Lemma getEnvSlice_elems (env : Env) (key : string) (sep : ascii) (z : string) :
  In z (getEnvSlice env key sep) -> z <> "" /\ TrimSpace z = z.
Proof.
  unfold getEnvSlice. destruct (String.eqb _ ""); [simpl; tauto|].
  apply keep_trimmed_elems.
Qed.

Definition entry_ok (k v : string) : Prop := k <> "" /\ TrimSpace k = k /\ TrimSpace v = v.

Lemma add_pair_entries (kvSep : ascii) (m : gmap string string) (pair : string) :
  map_Forall entry_ok m -> map_Forall entry_ok (add_pair kvSep m pair).
Proof.
  intros Hm. unfold add_pair. cbv zeta.
  destruct (negb _); [|exact Hm].
  destruct (SplitN2 _ _) as [|p0 [|p1 [|]]]; try exact Hm.
  destruct (String.eqb_spec (TrimSpace p0) ""); simpl; [exact Hm|].
  apply map_Forall_insert_2; [|exact Hm].
  split; [assumption|split; apply TrimSpace_idem].
Qed.

Lemma getEnvMap_entries (env : Env) (key : string) (ps kvs : ascii) :
  map_Forall entry_ok (getEnvMap env key ps kvs).
Proof.
  unfold getEnvMap. destruct (String.eqb _ ""); [apply map_Forall_empty|].
  generalize (Split (Getenv env key) ps) as l.
  assert (Hgen : forall l m, map_Forall entry_ok m ->
                   map_Forall entry_ok (fold_left (add_pair kvs) l m)).
  { induction l as [|p l IH]; intros m Hm; simpl; [exact Hm|].
    apply IH, add_pair_entries, Hm. }
  intros l. apply Hgen, map_Forall_empty.
Qed.

Lemma Cut_app (sep : ascii) (k v : string) :
  no_byte sep k = true -> Cut (k ++ String sep v) sep = Some (k, v).
Proof.
  induction k as [|c k IH]; intros H.
  - rewrite app_nil_l. simpl. now rewrite Ascii.eqb_refl.
  - rewrite app_cons. simpl. simpl in H.
    apply andb_true_iff in H as [Hc H]. apply negb_true_iff in Hc.
    now rewrite Hc, IH by exact H.
Qed.

Lemma add_pair_kv (m : gmap string string) (k v : string) :
  no_byte "=" k = true -> k <> "" -> TrimSpace k = k -> TrimSpace v = v ->
  add_pair "=" m (k ++ "=" ++ v) = <[k := v]> m.
Proof.
  intros Hk Hne Htk Htv. change (k ++ "=" ++ v)%string with (k ++ String "=" v)%string.
  unfold add_pair. cbv zeta.
  rewrite TrimSpace_kv by assumption.
  assert (E : String.eqb (k ++ String "=" v) "" = false)
    by (destruct k; [contradiction|reflexivity]).
  rewrite E. cbv [negb]. unfold SplitN2. rewrite Cut_app by exact Hk.
  rewrite Htk, Htv. destruct (String.eqb_spec k ""); [contradiction|]. reflexivity.
Qed.

Lemma fold_add_pairs (kvs : list (string * string)) (m : gmap string string) :
  Forall (fun kv => no_byte "=" kv.1 = true /\ entry_ok kv.1 kv.2) kvs ->
  fold_left (add_pair "=") (map (fun kv => kv.1 ++ "=" ++ kv.2) kvs)%string m =
  fold_left (fun m kv => <[kv.1 := kv.2]> m) kvs m.
Proof.
  revert m. induction kvs as [|[k v] kvs IH]; intros m Hall; simpl; [reflexivity|].
  inversion Hall as [|? ? (Hk & Hne & Htk & Htv) Hrest]; subst.
  rewrite add_pair_kv by assumption. apply IH, Hrest.
Qed.

Lemma getEnv_nonempty (env : Env) (key d : string) : d <> "" -> getEnv env key d <> "".
Proof. unfold getEnv. destruct (String.eqb_spec (Getenv env key) ""); simpl; auto. Qed.

Lemma getEnvInt_Atoi (env : Env) (key : string) (d : Z) :
  getEnvInt env key d = match Atoi (Getenv env key) with Some i => i | None => d end.
Proof. unfold getEnvInt. destruct (String.eqb_spec (Getenv env key) "") as [->|]; reflexivity. Qed.

Lemma Validate_none (c : Config.Config) :
  Validate c = None ->
  Config.TSIGKey c <> "" /\ Config.TSIGSecret c <> "" /\ Config.AllowedZones c <> [] /\
  (1 <= Config.Port c <= 65535)%Z.
Proof.
  unfold Validate.
  destruct (String.eqb_spec (Config.TSIGKey c) ""); [discriminate|].
  destruct (String.eqb_spec (Config.TSIGSecret c) ""); [discriminate|].
  destruct (Nat.eqb_spec (length (Config.AllowedZones c)) 0) as [|Hz]; [discriminate|].
  destruct ((Config.Port c <? 1) || (65535 <? Config.Port c))%Z eqn:EP; [discriminate|].
  intros _. apply orb_false_iff in EP as [E1 E2]. apply Z.ltb_ge in E1, E2.
  refine (conj _ (conj _ (conj _ _))); try assumption; [|lia].
  intros Hn. rewrite Hn in Hz. contradiction.
Qed.

Lemma LoadConfig_ok (env : Env) (cfg : Config.Config) :
  LoadConfig env = Ok cfg ->
  Validate cfg = None /\
  cfg = Config.mkConfig
    (getEnv env "LISTEN_ADDR" "0.0.0.0")
    (getEnvInt env "PORT" 5353)
    (getEnv env "TSIG_KEY" "opnsense-ddns")
    (getEnv env "TSIG_SECRET" "changeme")
    (getEnv env "TSIG_ALGORITHM" "hmac-sha256")
    (getEnv env "NAMESPACE" "default")
    (getEnvSlice env "ALLOWED_ZONES" ",")
    (getEnvMap env "CUSTOM_LABELS" "," "=")
    (getEnv env "LOG_LEVEL" "info").
Proof.
  unfold LoadConfig. cbv zeta.
  match goal with |- context [Validate ?c] => destruct (Validate c) eqn:EV end;
    [discriminate|].
  intros H. injection H as <-. split; [exact EV|reflexivity].
Qed.

(** X1: [getEnvSlice] reads back a comma-joined list of entries that are
    non-empty, have no surrounding white space (ASCII or Unicode, as
    [strings.TrimSpace] trims it) and contain no comma; every entry it
    returns, whatever the variable holds, is non-empty and has no
    surrounding white space. *)
Theorem getEnvSlice_join (env : Env) (key : string) (zs : list string) :
  (env !! key = Some (String.concat "," zs) ->
   Forall (fun z => z <> "" /\ TrimSpace z = z /\ no_byte "," z = true) zs ->
   getEnvSlice env key "," = zs) /\
  (forall z, In z (getEnvSlice env key ",") -> z <> "" /\ TrimSpace z = z).
Proof.
  split; [|apply getEnvSlice_elems].
  intros Henv Hall. unfold getEnvSlice, Getenv. rewrite Henv. simpl default.
  destruct zs as [|z zs]; [reflexivity|].
  inversion Hall as [|? ? (Hz & _ & _) _]; subst.
  rewrite concat_nonempty by exact Hz.
  rewrite Split_concat.
  - apply keep_trimmed_id. eapply Forall_impl; [exact Hall|]. simpl. tauto.
  - eapply Forall_impl; [exact Hall|]. simpl. tauto.
Qed.

(** X2: [getEnvMap] with separators ',' and '=' reads back "k1=v1,k2=v2,..."
    when every key is non-empty and contains neither ',' nor '=', every
    value contains no ',', and neither has surrounding white space: the
    result maps each key to the value of its last pair.  Whatever the
    variable holds, every key it returns is non-empty and every key and
    value has no surrounding white space. *)
Theorem getEnvMap_join (env : Env) (key : string) (kvs : list (string * string)) :
  (env !! key = Some (String.concat "," (map (fun kv => kv.1 ++ "=" ++ kv.2) kvs)) ->
   Forall (fun kv => kv.1 <> "" /\ TrimSpace kv.1 = kv.1 /\ no_byte "," kv.1 = true /\
                     no_byte "=" kv.1 = true /\
                     TrimSpace kv.2 = kv.2 /\ no_byte "," kv.2 = true) kvs ->
   getEnvMap env key "," "=" = list_to_map (rev kvs)) /\
  (forall k v, getEnvMap env key "," "=" !! k = Some v ->
     k <> "" /\ TrimSpace k = k /\ TrimSpace v = v).
Proof.
  split; [|intros k v Hkv; exact (getEnvMap_entries env key "," "=" k v Hkv)].
  intros Henv Hall. unfold getEnvMap, Getenv. rewrite Henv. simpl default.
  destruct kvs as [|[k v] kvs']; [reflexivity|].
  inversion Hall as [|? ? (Hk & _) _]; subst.
  simpl map. rewrite concat_nonempty by (destruct k; [contradiction|discriminate]).
  rewrite Split_concat.
  - etransitivity; [apply (fold_add_pairs ((k, v) :: kvs') ∅)|].
    + eapply Forall_impl; [exact Hall|]. intros [a b]; simpl; unfold entry_ok; tauto.
    + symmetry. unfold list_to_map.
      exact (fold_left_rev_right (fun kv m => <[kv.1 := kv.2]> m) ((k, v) :: kvs') ∅).
  - change (Forall (fun z => no_byte "," z = true)
              (map (fun kv => kv.1 ++ "=" ++ kv.2) ((k, v) :: kvs'))%string).
    apply Forall_map. eapply Forall_impl; [exact Hall|].
    intros [a b]; simpl. intros (_ & _ & Ha & _ & _ & Hb).
    rewrite !no_byte_app, Ha, Hb. reflexivity.
Qed.

(** X3: a configuration [LoadConfig] returns has a non-empty TSIG key and
    secret, at least one allowed zone, a port within 1..65535, allowed
    zones that are non-empty and without surrounding white space, and
    custom labels whose keys are non-empty and whose keys and values have
    no surrounding white space. *)
Theorem LoadConfig_guarantees (env : Env) (cfg : Config.Config) :
  LoadConfig env = Ok cfg ->
  Config.TSIGKey cfg <> "" /\ Config.TSIGSecret cfg <> "" /\
  Config.AllowedZones cfg <> [] /\ (1 <= Config.Port cfg <= 65535)%Z /\
  (forall z, In z (Config.AllowedZones cfg) -> z <> "" /\ TrimSpace z = z) /\
  (forall k v, Config.CustomLabels cfg !! k = Some v ->
     k <> "" /\ TrimSpace k = k /\ TrimSpace v = v).
Proof.
  intros H. destruct (LoadConfig_ok env cfg H) as [EV Hc].
  destruct (Validate_none cfg EV) as (Hk & Hs & Hz & Hp).
  refine (conj Hk (conj Hs (conj Hz (conj Hp _)))).
  rewrite Hc. cbn [Config.AllowedZones Config.CustomLabels]. split.
  - apply getEnvSlice_elems.
  - intros k v Hkv. exact (getEnvMap_entries env "CUSTOM_LABELS" "," "=" k v Hkv).
Qed.

(** X4: [LoadConfig] never fails on the TSIG key or secret (an unset or
    empty variable falls back to a non-empty default, and an unparsable
    PORT to 5353): it fails exactly when ALLOWED_ZONES has no non-blank
    entry, or PORT parses as an integer outside 1..65535. *)
Theorem LoadConfig_failure (env : Env) :
  (forall e, LoadConfig env = Err e -> e = NoAllowedZones \/ e = PortOutOfRange) /\
  ((exists e, LoadConfig env = Err e) <->
   getEnvSlice env "ALLOWED_ZONES" "," = [] \/
   exists p, Atoi (Getenv env "PORT") = Some p /\ (p < 1 \/ 65535 < p)%Z).
Proof.
  unfold LoadConfig, Validate. cbv zeta.
  cbn [Config.TSIGKey Config.TSIGSecret Config.AllowedZones Config.Port].
  destruct (String.eqb_spec (getEnv env "TSIG_KEY" "opnsense-ddns") "") as [E|_].
  { exfalso. exact (getEnv_nonempty env "TSIG_KEY" "opnsense-ddns" ltac:(discriminate) E). }
  destruct (String.eqb_spec (getEnv env "TSIG_SECRET" "changeme") "") as [E|_].
  { exfalso. exact (getEnv_nonempty env "TSIG_SECRET" "changeme" ltac:(discriminate) E). }
  rewrite getEnvInt_Atoi.
  destruct (getEnvSlice env "ALLOWED_ZONES" ",") as [|z zs].
  { simpl. split; [intros e He; injection He as <-; now left|].
    split; [intros _; now left|intros _; eexists; reflexivity]. }
  simpl length. cbv iota.
  destruct (Atoi (Getenv env "PORT")) as [p|].
  - destruct ((p <? 1) || (65535 <? p))%Z eqn:EP.
    + split; [intros e He; injection He as <-; now right|].
      split; [intros _|intros _; eexists; reflexivity].
      right. exists p. split; [reflexivity|].
      apply orb_true_iff in EP as [E|E]; apply Z.ltb_lt in E; lia.
    + split; [intros e He; discriminate|].
      split; [intros [e He]; discriminate|].
      intros [H|(p' & Hp' & Hr)]; [discriminate|]. injection Hp' as <-.
      apply orb_false_iff in EP as [E1 E2]. apply Z.ltb_ge in E1, E2. lia.
  - simpl. split; [intros e He; discriminate|].
    split; [intros [e He]; discriminate|].
    intros [H|(p' & Hp' & _)]; discriminate.
Qed.

Definition sample_env : Env :=
  <["ALLOWED_ZONES" := " example.com , ,home.lan"]>
  (<["PORT" := "53"]> (<["CUSTOM_LABELS" := "team=infra, env = lab"]> ∅)).

Definition sample_config : Config.Config :=
  match LoadConfig sample_env with Ok c => c | Err _ => Samples.cfg [] end.

Lemma getEnvSlice_join_witness :
  <["ALLOWED_ZONES" := "example.com,home.lan"]> (∅ : Env) !! "ALLOWED_ZONES" =
    Some (String.concat "," ["example.com"; "home.lan"]) /\
  getEnvSlice (<["ALLOWED_ZONES" := "example.com,home.lan"]> ∅) "ALLOWED_ZONES" "," =
    ["example.com"; "home.lan"].
Proof.
  split; [reflexivity|].
  apply (proj1 (getEnvSlice_join (<["ALLOWED_ZONES" := "example.com,home.lan"]> ∅)
                  "ALLOWED_ZONES" ["example.com"; "home.lan"])); [reflexivity|].
  repeat constructor; try discriminate.
Defined.

Lemma getEnvMap_join_witness :
  getEnvMap (<["CUSTOM_LABELS" := "team=infra,env=lab,team=dns"]> ∅) "CUSTOM_LABELS" "," "=" =
    list_to_map (rev [("team", "infra"); ("env", "lab"); ("team", "dns")]).
Proof.
  apply (proj1 (getEnvMap_join (<["CUSTOM_LABELS" := "team=infra,env=lab,team=dns"]> ∅)
                  "CUSTOM_LABELS" [("team", "infra"); ("env", "lab"); ("team", "dns")]));
    [reflexivity|].
  repeat constructor; try discriminate.
Defined.

Lemma LoadConfig_guarantees_witness :
  LoadConfig sample_env = Ok sample_config /\ (1 <= Config.Port sample_config <= 65535)%Z.
Proof.
  assert (H : LoadConfig sample_env = Ok sample_config) by (vm_compute; reflexivity).
  split; [exact H|].
  exact (proj1 (proj2 (proj2 (proj2 (LoadConfig_guarantees sample_env sample_config H))))).
Defined.

(** ALLOWED_ZONES holding only a no-break space (U+00A0, bytes C2 A0). *)
Definition nbsp_env : Env :=
  <["ALLOWED_ZONES" := String (ascii_of_nat 194) (String (ascii_of_nat 160) "")]> ∅.

Lemma LoadConfig_failure_witness :
  (exists e, LoadConfig nbsp_env = Err e) /\
  exists e, LoadConfig (<["PORT" := "0"]> (<["ALLOWED_ZONES" := "example.com"]> ∅)) = Err e.
Proof.
  split.
  - apply (proj2 (proj2 (LoadConfig_failure nbsp_env))).
    left. vm_compute. reflexivity.
  - apply (proj2 (proj2 (LoadConfig_failure
                           (<["PORT" := "0"]> (<["ALLOWED_ZONES" := "example.com"]> ∅))))).
    right. exists 0%Z. split; [reflexivity|lia].
Defined.

Lemma last_decomp (s : string) : s <> "" -> exists p c, s = (p ++ String c "")%string.
Proof.
  induction s as [|c s IH]; [contradiction|]. intros _.
  destruct s as [|c' s'].
  - exists "", c. reflexivity.
  - destruct IH as (p & d & E); [discriminate|].
    exists (String c p), d. rewrite E. reflexivity.
Qed.

Lemma get_last (p : string) (c : ascii) :
  String.get (String.length (p ++ String c "") - 1) (p ++ String c "") = Some c.
Proof.
  rewrite length_app. simpl String.length at 2.
  replace (String.length p + 1 - 1)%nat with (String.length p) by lia.
  induction p as [|d p IH]; [reflexivity|rewrite app_cons; exact IH].
Qed.

Lemma HasSuffix_dot_last (p : string) (c : ascii) :
  HasSuffix (p ++ String c "") "." = Ascii.eqb c ".".
Proof.
  unfold HasSuffix. rewrite length_app.
  pose proof (substring_app_length p (String c "")) as Hs. simpl String.length in Hs |- *.
  replace (String.length p + 1 - 1)%nat with (String.length p) by lia.
  replace (1 <=? String.length p + 1)%nat with true by (symmetry; apply Nat.leb_le; lia).
  rewrite Hs. simpl. destruct (Ascii.eqb c "."); reflexivity.
Qed.

(** X5: the key name [writeResponse] signs a reply with panics (index out
    of range) exactly when the configured TSIG key is empty, which a
    configuration returned by [LoadConfig] never has; otherwise it is the
    key with a trailing dot added when it has none. *)
Theorem responseKeyName_spec (env : Env) (cfg : Config.Config) :
  (ReplyKey.responseKeyName cfg = None <-> Config.TSIGKey cfg = "") /\
  (Config.TSIGKey cfg <> "" ->
   ReplyKey.responseKeyName cfg = Some (Config.ensure_dot (Config.TSIGKey cfg))) /\
  (LoadConfig env = Ok cfg ->
   ReplyKey.responseKeyName cfg = Some (Config.ensure_dot (Config.TSIGKey cfg))).
Proof.
  assert (Hne : Config.TSIGKey cfg <> "" ->
                ReplyKey.responseKeyName cfg = Some (Config.ensure_dot (Config.TSIGKey cfg))).
  { intros Hk. unfold ReplyKey.responseKeyName, Config.ensure_dot.
    destruct (last_decomp _ Hk) as (p & c & ->).
    rewrite get_last, HasSuffix_dot_last. destruct (Ascii.eqb c "."); reflexivity. }
  split; [|split; [exact Hne|]].
  - split.
    + intros H. destruct (string_dec (Config.TSIGKey cfg) "") as [E|E]; [exact E|].
      rewrite (Hne E) in H. discriminate.
    + intros E. unfold ReplyKey.responseKeyName. rewrite E. reflexivity.
  - intros H. apply Hne.
    destruct (LoadConfig_ok env cfg H) as [EV _]. apply (Validate_none cfg EV).
Qed.

Lemma responseKeyName_spec_witness :
  ReplyKey.responseKeyName sample_config = Some "opnsense-ddns.".
Proof.
  rewrite (proj2 (proj2 (responseKeyName_spec sample_env sample_config))).
  - reflexivity.
  - vm_compute. reflexivity.
Defined.

End EnvProofs.

(* ------------------------------------------------------------------ *)
(** ** The message filter of the servers *)

Module ServerProofs.
Import Server.

Lemma land_32768 (x : Z) : Z.land x 32768 = if Z.testbit x 15 then 32768%Z else 0%Z.
Proof.
  apply Z.bits_inj'. intros n Hn. rewrite Z.land_spec.
  change 32768%Z with (2 ^ 15)%Z.
  rewrite (Z.pow2_bits_eqb 15 n) by lia.
  destruct (Z.testbit x 15) eqn:E.
  - rewrite (Z.pow2_bits_eqb 15 n) by lia.
    destruct (Z.eqb_spec 15 n); [subst; now rewrite E|apply andb_false_r].
  - rewrite Z.bits_0. destruct (Z.eqb_spec 15 n); [subst; now rewrite E|apply andb_false_r].
Qed.

(** X6: on a header whose flag word is [qr * 2^15 + opcode * 2^11 + low]
    (QR bit, 4-bit opcode, 11 lower flag and rcode bits), [msgAccept]
    ignores every response (QR set), accepts a request whose opcode is
    QUERY (0), NOTIFY (4) or UPDATE (5), and rejects every other request
    as not implemented, whatever the lower bits. *)
Theorem msgAccept_header (qr opcode low : Z) :
  (0 <= qr <= 1)%Z -> (0 <= opcode < 16)%Z -> (0 <= low < 2048)%Z ->
  msgAccept (qr * 32768 + opcode * 2048 + low) =
  if (qr =? 1)%Z then MsgIgnore
  else if ((opcode =? OpcodeQuery) || (opcode =? OpcodeNotify) || (opcode =? OpcodeUpdate))%Z
  then MsgAccept
  else MsgRejectNotImplemented.
Proof.
  intros Hqr Hop Hlow. unfold msgAccept. rewrite land_32768.
  set (bits := (qr * 32768 + opcode * 2048 + low)%Z).
  assert (Hq : (bits / 2 ^ 15 = qr)%Z).
  { symmetry. apply Z.div_unique with (opcode * 2048 + low)%Z; unfold bits; lia. }
  assert (Ht : Z.b2z (Z.testbit bits 15) = qr).
  { rewrite Z.testbit_spec' by lia. rewrite Hq. apply Z.mod_small. lia. }
  assert (Hop' : Z.land (Z.shiftr bits 11) 15 = opcode).
  { rewrite Z.shiftr_div_pow2 by lia. change 15%Z with (Z.ones 4).
    rewrite Z.land_ones by lia.
    assert (Hd : (bits / 2 ^ 11 = qr * 16 + opcode)%Z).
    { symmetry. apply Z.div_unique with low; unfold bits; lia. }
    rewrite Hd. symmetry. apply Z.mod_unique with qr; lia. }
  rewrite Hop'.
  destruct (Z.testbit bits 15); simpl in Ht; rewrite <- Ht; reflexivity.
Qed.

Lemma msgAccept_header_witness :
  msgAccept (0 * 32768 + 5 * 2048 + 256) = MsgAccept /\
  msgAccept (1 * 32768 + 5 * 2048 + 256) = MsgIgnore /\
  msgAccept (0 * 32768 + 2 * 2048 + 0) = MsgRejectNotImplemented.
Proof.
  refine (conj _ (conj _ _)).
  - rewrite (msgAccept_header 0 5 256) by lia. reflexivity.
  - rewrite (msgAccept_header 1 5 256) by lia. reflexivity.
  - rewrite (msgAccept_header 0 2 0) by lia. reflexivity.
Defined.

End ServerProofs.

(* ------------------------------------------------------------------ *)
(** ** More of the authorizer *)

Module ZoneExtraProofs.
Import Config.

Lemma substring_app_r (x z : string) (k m : nat) :
  substring (String.length x + k) m (x ++ z) = substring k m z.
Proof. induction x as [|c x IH]; [reflexivity|exact IH]. Qed.

Lemma HasSuffix_app_r (x z suffix : string) :
  (String.length suffix <= String.length z)%nat ->
  HasSuffix (x ++ z) suffix = HasSuffix z suffix.
Proof.
  intros H. unfold HasSuffix. rewrite length_app.
  replace (String.length x + String.length z - String.length suffix)%nat
    with (String.length x + (String.length z - String.length suffix))%nat by lia.
  rewrite substring_app_r.
  replace (String.length suffix <=? String.length x + String.length z)%nat with true
    by (symmetry; apply Nat.leb_le; lia).
  replace (String.length suffix <=? String.length z)%nat with true
    by (symmetry; apply Nat.leb_le; lia).
  reflexivity.
Qed.

Lemma HasSuffix_length (s suffix : string) :
  HasSuffix s suffix = true -> (String.length suffix <= String.length s)%nat.
Proof. unfold HasSuffix. intros H. apply andb_true_iff in H as [H _]. now apply Nat.leb_le. Qed.

Lemma ensure_dot_app (x z : string) : z <> "" -> ensure_dot (x ++ z) = (x ++ ensure_dot z)%string.
Proof.
  intros Hz. unfold ensure_dot.
  rewrite HasSuffix_app_r by (destruct z; [contradiction|simpl; lia]).
  destruct (HasSuffix z "."); [reflexivity|apply EnvProofs.string_app_assoc].
Qed.

(** X7: [IsZoneAllowed] accepts every configured zone; it accepts every
    name below a non-empty accepted zone (label(s), a dot, then the zone);
    and a configuration whose allowed list contains the zones of another
    accepts everything the other accepts. *)
Theorem IsZoneAllowed_closure (c : Config) :
  (forall a, In a (AllowedZones c) -> IsZoneAllowed c a = true) /\
  (forall z h, z <> "" -> IsZoneAllowed c z = true -> IsZoneAllowed c (h ++ "." ++ z) = true) /\
  (forall c' z, (forall a, In a (AllowedZones c) -> In a (AllowedZones c')) ->
     IsZoneAllowed c z = true -> IsZoneAllowed c' z = true).
Proof.
  unfold IsZoneAllowed. refine (conj _ (conj _ _)).
  - intros a Hin. apply ZoneProofs.zone_loop_spec. exists a. split; [exact Hin|now left].
  - intros z h Hz H. rewrite ZoneProofs.zone_loop_spec in H |- *.
    destruct H as (a & Hin & Ha). exists a. split; [exact Hin|]. right.
    rewrite <- (EnvProofs.string_app_assoc h "." z), ensure_dot_app by exact Hz.
    destruct Ha as [Ha|Ha].
    + rewrite Ha, EnvProofs.string_app_assoc. apply HasSuffix_app.
    + rewrite HasSuffix_app_r; [exact Ha|exact (HasSuffix_length _ _ Ha)].
  - intros c' z Hsub H. rewrite ZoneProofs.zone_loop_spec in H |- *.
    destruct H as (a & Hin & Ha). exists a. split; [apply Hsub, Hin|exact Ha].
Qed.

Lemma IsZoneAllowed_closure_witness :
  IsZoneAllowed (Samples.cfg ["example.com"]) ("a.b" ++ "." ++ "example.com") = true /\
  IsZoneAllowed (Samples.cfg ["home.lan"; "example.com"]) "example.com" = true.
Proof.
  split.
  - apply (proj1 (proj2 (IsZoneAllowed_closure (Samples.cfg ["example.com"]))));
      [discriminate|reflexivity].
  - apply (proj2 (proj2 (IsZoneAllowed_closure (Samples.cfg ["example.com"])))
             (Samples.cfg ["home.lan"; "example.com"])); [|reflexivity].
    intros a [<-|[]]. right. left. reflexivity.
Defined.

End ZoneExtraProofs.

(* ------------------------------------------------------------------ *)
(** ** The hostname of an intent *)

Module HostnameProofs.

Lemma substring_prefix_app (a b : string) : substring 0 (String.length a) (a ++ b) = a.
Proof.
  induction a as [|c a IH]; [destruct b; reflexivity|].
  rewrite EnvProofs.app_cons. simpl. now rewrite IH.
Qed.

Lemma TrimSuffix_app (a b : string) : TrimSuffix (a ++ b) b = a.
Proof.
  unfold TrimSuffix. rewrite HasSuffix_app, length_app.
  replace (String.length a + String.length b - String.length b)%nat
    with (String.length a) by lia.
  apply substring_prefix_app.
Qed.

(** X8: for a record named [h.z.] in the zone [z.], [GetHostname] returns
    [h] (the part before the zone, whatever [h] and [z] are); for the
    record named like the zone itself it returns "@". *)
Theorem GetHostname_in_zone (t : UpdateType) (rt : N) (h z : string) (ip : option Dns.IP) (ttl : N) :
  GetHostname (mkDNSUpdate t rt (h ++ "." ++ z ++ ".") (z ++ ".") ip ttl) = h /\
  GetHostname (mkDNSUpdate t rt (z ++ ".") (z ++ ".") ip ttl) = "@".
Proof.
  unfold GetHostname; cbn [Update.Name Update.Zone]. split.
  - replace (h ++ "." ++ z ++ ".")%string with ((h ++ "." ++ z) ++ ".")%string
      by (rewrite !EnvProofs.string_app_assoc; reflexivity).
    rewrite !TrimSuffix_app, HasSuffix_app. reflexivity.
  - rewrite TrimSuffix_app, HasSuffix_longer by (rewrite length_app; simpl; lia).
    now rewrite String.eqb_refl.
Qed.

End HostnameProofs.

(* ------------------------------------------------------------------ *)
(** ** The shape of the derived names *)

Module SanitizerProofs.

(** A character [dnsNameToK8sName] keeps: [a-z], [0-9] or '-'. *)
Definition k8s_char (c : ascii) : bool := isAlphanumericLower c || Ascii.eqb c "-".

Fixpoint all_chars (p : ascii -> bool) (s : string) : bool :=
  match s with
  | EmptyString => true
  | String c rest => p c && all_chars p rest
  end.

Lemma all_chars_substring (p : ascii -> bool) (s : string) (n m : nat) :
  all_chars p s = true -> all_chars p (substring n m s) = true.
Proof.
  revert n m. induction s as [|c s IH]; intros n m H; [destruct n, m; reflexivity|].
  simpl in H. apply andb_true_iff in H as [Hc H].
  destruct n as [|n]; [destruct m as [|m]|]; simpl; [reflexivity| |apply IH, H].
  rewrite Hc. apply IH, H.
Qed.

Lemma all_chars_get (p : ascii -> bool) (s : string) (n : nat) (c : ascii) :
  all_chars p s = true -> String.get n s = Some c -> p c = true.
Proof.
  revert n. induction s as [|d s IH]; intros n H G; [discriminate|].
  simpl in H. apply andb_true_iff in H as [Hd H].
  destruct n as [|n]; simpl in G; [injection G as <-; exact Hd|exact (IH n H G)].
Qed.

Lemma k8s_runes_chars (s : string) : all_chars k8s_char (k8s_runes s) = true.
Proof.
  induction s as [|r s IH]; [reflexivity|]. simpl.
  destruct (isAlphanumericLower r || Ascii.eqb r "-") eqn:Ek; simpl.
  - rewrite IH. unfold k8s_char. now rewrite Ek.
  - destruct (Ascii.eqb r "." || Ascii.eqb r "_" || Ascii.eqb r ":"); simpl; [exact IH|exact IH].
Qed.

Lemma ascii_to_lower_k8s (c : ascii) : k8s_char c = true -> ascii_to_lower c = c.
Proof.
  unfold k8s_char, isAlphanumericLower, ascii_to_lower. intros H.
  destruct ((65 <=? nat_of_ascii c) && (nat_of_ascii c <=? 90))%nat eqn:E; [|reflexivity].
  exfalso. apply andb_true_iff in E as [E1 E2]. apply Nat.leb_le in E1, E2.
  apply orb_true_iff in H as [H|H].
  - apply orb_true_iff in H as [H|H]; apply andb_true_iff in H as [H1 H2];
      apply Nat.leb_le in H1, H2; lia.
  - apply Ascii.eqb_eq in H. subst c. vm_compute in E1. lia.
Qed.

Lemma ToLower_k8s (s : string) : all_chars k8s_char s = true -> ToLower s = s.
Proof.
  induction s as [|c s IH]; [reflexivity|]. simpl. intros H.
  apply andb_true_iff in H as [Hc H]. now rewrite ascii_to_lower_k8s, IH.
Qed.

Lemma k8s_runes_k8s (s : string) : all_chars k8s_char s = true -> k8s_runes s = s.
Proof.
  induction s as [|c s IH]; [reflexivity|]. simpl. intros H.
  apply andb_true_iff in H as [Hc H]. unfold k8s_char in Hc. now rewrite Hc, IH.
Qed.

Lemma dnsNameToK8sName_k8s (s : string) : all_chars k8s_char s = true -> dnsNameToK8sName s = s.
Proof. intros H. unfold dnsNameToK8sName. rewrite ToLower_k8s by exact H. now apply k8s_runes_k8s. Qed.

Lemma drop_trailing_dot_k8s (s : string) : all_chars k8s_char s = true -> drop_trailing_dot s = s.
Proof.
  intros H. unfold drop_trailing_dot.
  destruct (String.get (String.length s - 1) s) as [c|] eqn:G; [|now rewrite andb_false_r].
  pose proof (all_chars_get _ _ _ _ H G) as Hc.
  destruct (Ascii.eqb_spec c ".") as [->|]; [discriminate|]. now rewrite andb_false_r.
Qed.

(** What [sanitizeResourceName] returns before the final truncation. *)
Definition prefixed (name : string) : string :=
  match name with
  | String c _ => if negb (isAlphanumericLower c) then "dns-" ++ name else name
  | EmptyString => name
  end.

Definition starts_alnum (s : string) : bool :=
  match s with String c _ => isAlphanumericLower c | EmptyString => true end.

Lemma prefixed_shape (name : string) :
  all_chars k8s_char name = true ->
  all_chars k8s_char (prefixed name) = true /\ starts_alnum (prefixed name) = true.
Proof.
  intros H. destruct name as [|c rest]; [split; reflexivity|]. unfold prefixed.
  destruct (isAlphanumericLower c) eqn:E; simpl; [rewrite E; split; [exact H|reflexivity]|].
  split; [exact H|reflexivity].
Qed.

Lemma truncate_shape (n : nat) (s : string) :
  all_chars k8s_char s = true -> starts_alnum s = true ->
  let t := if (n <? String.length s)%nat then prefix_upto n s else s in
  all_chars k8s_char t = true /\ starts_alnum t = true /\ (String.length t <= Nat.max n (String.length s))%nat.
Proof.
  intros H Hs. cbv zeta. destruct (Nat.ltb_spec n (String.length s)).
  - refine (conj (all_chars_substring _ _ _ _ H) (conj _ _)).
    + destruct n as [|n]; [destruct s; reflexivity|]. destruct s; [reflexivity|exact Hs].
    + pose proof (NameProofs.length_prefix_upto n s). lia.
  - refine (conj H (conj Hs _)). lia.
Qed.

(** X9: [sanitizeResourceName] returns at most 253 characters, all in
    [a-z0-9-], starting with a letter or digit when it is non-empty; and
    applying it to its own result changes nothing. *)
Theorem sanitizeResourceName_shape_idempotent (s : string) :
  all_chars k8s_char (sanitizeResourceName s) = true /\
  (String.length (sanitizeResourceName s) <= 253)%nat /\
  starts_alnum (sanitizeResourceName s) = true /\
  sanitizeResourceName (sanitizeResourceName s) = sanitizeResourceName s.
Proof.
  assert (Hshape : all_chars k8s_char (sanitizeResourceName s) = true /\
                   (String.length (sanitizeResourceName s) <= 253)%nat /\
                   starts_alnum (sanitizeResourceName s) = true).
  { unfold sanitizeResourceName. cbv zeta.
    fold (prefixed (dnsNameToK8sName (drop_trailing_dot s))).
    destruct (prefixed_shape (dnsNameToK8sName (drop_trailing_dot s)) (k8s_runes_chars _))
      as [H1 H2].
    destruct (truncate_shape 253 _ H1 H2) as (T1 & T2 & T3). cbv zeta in T1, T2, T3.
    refine (conj T1 (conj _ T2)).
    destruct (Nat.ltb_spec 253 (String.length (prefixed (dnsNameToK8sName (drop_trailing_dot s))))).
    - apply NameProofs.length_prefix_upto.
    - exact H. }
  destruct Hshape as (H1 & H2 & H3). refine (conj H1 (conj H2 (conj H3 _))).
  remember (sanitizeResourceName s) as r eqn:Er. clear Er.
  unfold sanitizeResourceName. rewrite drop_trailing_dot_k8s, dnsNameToK8sName_k8s by exact H1.
  destruct r as [|c rest]; [reflexivity|]. simpl in H3. rewrite H3. simpl negb. cbv iota.
  destruct (Nat.ltb_spec 253 (String.length (String c rest))); [lia|reflexivity].
Qed.

(** X10: [sanitizeLabel] returns at most 63 characters, all in [a-z0-9-];
    applying it to its own result changes nothing. *)
Theorem sanitizeLabel_shape_idempotent (s : string) :
  all_chars k8s_char (sanitizeLabel s) = true /\
  (String.length (sanitizeLabel s) <= 63)%nat /\
  sanitizeLabel (sanitizeLabel s) = sanitizeLabel s.
Proof.
  assert (H1 : all_chars k8s_char (sanitizeLabel s) = true).
  { unfold sanitizeLabel. cbv zeta.
    destruct (63 <? String.length (dnsNameToK8sName (drop_trailing_dot s)))%nat;
      [apply all_chars_substring|]; apply k8s_runes_chars. }
  assert (H2 : (String.length (sanitizeLabel s) <= 63)%nat).
  { unfold sanitizeLabel. cbv zeta.
    destruct (Nat.ltb_spec 63 (String.length (dnsNameToK8sName (drop_trailing_dot s))));
      [apply NameProofs.length_prefix_upto|exact H]. }
  refine (conj H1 (conj H2 _)).
  remember (sanitizeLabel s) as r eqn:Er. clear Er.
  unfold sanitizeLabel. rewrite drop_trailing_dot_k8s, dnsNameToK8sName_k8s by exact H1.
  destruct (Nat.ltb_spec 63 (String.length r)); [lia|reflexivity].
Qed.

End SanitizerProofs.

(* ------------------------------------------------------------------ *)
(** ** What the reconciler reports *)

Module ReconcilerExtraProofs.

Section Store.
Context {St : Type} `{ResourceInterface St}.

(** X11: for a create or update intent, [ApplyUpdate] never reports a
    change together with an error; it reports no change and no error
    exactly when the store already holds a resource of that name whose
    labels and spec equal the desired ones, and then it writes nothing. *)
Theorem ApplyUpdate_no_change_iff (c : Client) (sender : string) (upd : DNSUpdate)
    (st st' : St) (changed : bool) (err : option ClientError) :
  Type_ upd <> UpdateTypeDelete ->
  ApplyUpdate c sender upd st = (st', (changed, err)) ->
  (changed = true -> err = None) /\
  (changed = false /\ err = None <->
     exists existing, Get st (namespace c) (resourceNameOf upd) = Ok existing /\
       u_labels existing = u_labels (desiredEndpoint c sender upd) /\
       u_spec existing = u_spec (desiredEndpoint c sender upd)) /\
  (changed = false -> err = None -> st' = st).
Proof.
  intros Hty Hr. unfold ApplyUpdate in Hr.
  destruct (Type_ upd); [| |contradiction];
  unfold createOrUpdateEndpoint, compareEndpoint in Hr; cbv zeta in Hr;
  (destruct (Get st (namespace c) (resourceNameOf upd)) as [existing|e] eqn:EG;
   [destruct (bool_decide_reflect (u_labels existing = u_labels (desiredEndpoint c sender upd)))
      as [Hl|Hl];
    destruct (bool_decide_reflect (u_spec existing = u_spec (desiredEndpoint c sender upd)))
      as [Hs|Hs]; simpl in Hr;
    [injection Hr as <- <- <-
    |destruct (UpdateRes _ _ _); injection Hr as <- <- <- ..]
   |destruct (negb (isNotFoundError e)); simpl in Hr;
    [injection Hr as <- <- <-|destruct (Create _ _ _); injection Hr as <- <- <-]]);
  (split; [intros Hc; first [reflexivity|discriminate]|split; [split|]]);
  try (intros [? ?]; discriminate);
  try (intros (ex & Hex & _); discriminate);
  try (intros (ex & Hex & Hl' & Hs'); injection Hex as <-; contradiction);
  try (intros _ _; reflexivity);
  try (intros ? ?; discriminate);
  try (intros _; split; reflexivity);
  try (intros _; exists existing; auto).
Qed.

End Store.

Lemma ApplyUpdate_no_change_iff_witness :
  ApplyUpdate Samples.client Samples.sender Samples.router_upd ReconcilerProofs.created_store =
    (ReconcilerProofs.created_store, (false, None)) /\
  exists existing,
    MemStore.mem_get ReconcilerProofs.created_store "default" (resourceNameOf Samples.router_upd)
      = Ok existing /\
    u_spec existing = u_spec (desiredEndpoint Samples.client Samples.sender Samples.router_upd).
Proof.
  assert (E : ApplyUpdate Samples.client Samples.sender Samples.router_upd
                ReconcilerProofs.created_store =
              (ReconcilerProofs.created_store, (false, None))) by (vm_compute; reflexivity).
  split; [exact E|].
  destruct (proj1 (proj1 (proj2 (ApplyUpdate_no_change_iff Samples.client Samples.sender
              Samples.router_upd ReconcilerProofs.created_store ReconcilerProofs.created_store
              false None ltac:(discriminate) E))) (conj eq_refl eq_refl))
    as (existing & Hg & _ & Hs).
  exists existing. split; [exact Hg|exact Hs].
Defined.

End ReconcilerExtraProofs.

(* ------------------------------------------------------------------ *)
(** ** What the parser returns *)

Module ParseExtraProofs.

Lemma collect_sound (rrs : list RR) (zone : string) (u : DNSUpdate) :
  In u (collect rrs zone) -> exists rr, In rr rrs /\ parseRR rr zone = Ok (Some u).
Proof.
  induction rrs as [|rr rrs IH]; simpl; [tauto|].
  destruct (parseRR rr zone) as [[u'|]|e] eqn:E.
  - intros [<-|Hin]; [exists rr; auto|].
    destruct (IH Hin) as (rr' & ? & ?). exists rr'. auto.
  - intros Hin. destruct (IH Hin) as (rr' & ? & ?). exists rr'. auto.
  - intros Hin. destruct (IH Hin) as (rr' & ? & ?). exists rr'. auto.
Qed.

Lemma collect_length (rrs : list RR) (zone : string) :
  (length (collect rrs zone) <= length rrs)%nat.
Proof.
  induction rrs as [|rr rrs IH]; simpl; [lia|].
  destruct (parseRR rr zone) as [[u|]|e]; simpl; lia.
Qed.

(** X12: when [Parse] succeeds, the message is an UPDATE with a zone
    section, and the list of intents is non-empty and no longer than the
    update section; every intent is a create or a delete (never an
    [UpdateTypeUpdate]) of an A or AAAA record, carries the name of the
    first zone-section entry as its zone, and is named like a record of
    the update section. *)
Theorem Parse_result (msg : Msg) (us : list DNSUpdate) :
  Parse msg = Ok us ->
  Opcode msg = OpcodeUpdate /\ us <> [] /\ (length us <= length (Ns msg))%nat /\
  exists q qs, QuestionSection msg = q :: qs /\
    Forall (fun u => Zone u = QName q /\ Type_ u <> UpdateTypeUpdate /\
                     (RecordType u = TypeA \/ RecordType u = TypeAAAA) /\
                     exists rr, In rr (Ns msg) /\ Update.Name u = Dns.Name (Hdr rr)) us.
Proof.
  unfold Parse.
  destruct (Z.eqb_spec (Opcode msg) OpcodeUpdate) as [Hop|Hop]; simpl; [|discriminate].
  destruct (QuestionSection msg) as [|q qs]; [discriminate|].
  destruct (collect (Ns msg) (QName q)) as [|u0 us0] eqn:Ec; [discriminate|].
  intros Hr. injection Hr as <-.
  split; [exact Hop|]. split; [discriminate|]. split.
  - rewrite <- Ec. apply collect_length.
  - exists q, qs. split; [reflexivity|]. apply List.Forall_forall. intros u Hu.
    rewrite <- Ec in Hu. destruct (collect_sound _ _ _ Hu) as (rr & Hin & Hp).
    destruct (ParserProofs.parseRR_intent rr (QName q) u Hp)
      as (_ & Hname & Hzone & _ & Hrt & Hty & Hkind).
    refine (conj Hzone (conj _ (conj _ _))).
    + destruct Hkind as [(-> & _)|(-> & _)]; discriminate.
    + rewrite Hrt. exact Hty.
    + exists rr. split; [exact Hin|exact Hname].
Qed.

Lemma Parse_result_witness :
  Parse (Samples.update_msg "example.com." [Samples.router_rr]) = Ok [Samples.router_upd] /\
  [Samples.router_upd] <> [].
Proof.
  assert (H : Parse (Samples.update_msg "example.com." [Samples.router_rr]) = Ok [Samples.router_upd])
    by reflexivity.
  split; [exact H|].
  exact (proj1 (proj2 (Parse_result _ _ H))).
Defined.

End ParseExtraProofs.
